(** * API gateway of the shopping-list microservices: model and properties

    Shallow embedding of [src/api-gateway/server.js] (class [APIGateway]):
    the circuit breaker table, the path rewriting of [proxyRequest], the
    proxy itself and the two aggregate endpoints [getDashboard] and
    [globalSearch].

    Conventions.
    - JavaScript values that travel through the gateway (request bodies,
      response bodies, query parameters) are values of [JsVal]; an object
      is an association list in insertion order.
    - [this.circuitBreakers] (a JS [Map] whose entries are mutated in
      place) is a [gmap string Breaker]; every function that touches it
      takes the table and returns the new one.
    - [Date.now()] is an explicit argument; the network behind [axios] is
      an explicit function from the request configuration to what the
      HTTP exchange ends with.  That exchange is itself computed from what
      the servers put on the wire, with axios' timeout and its following
      of redirects ([exchange]).
    - Every call of [serviceRegistry.discover], [serviceRegistry.listServices]
      and [axios] is logged in a trace, so that "no registry lookup" and
      "no network call" are statements about that trace. *)

From Stdlib Require Import ZArith NArith String Ascii List Bool Lia.
From stdpp Require Import gmap strings list fin_maps pretty.

Local Open Scope string_scope.
Local Open Scope Z_scope.
Local Set Warnings "-register-all".

(** ** JavaScript values *)

Inductive JsVal : Type :=
| VUndefined
| VNull
| VBool (b : bool)
| VNum (n : Z)
| VStr (s : string)
| VArr (xs : list JsVal)
| VObj (fields : list (string * JsVal)).

(** JS truthiness ([!x] is [negb (truthy x)]). *)
Definition truthy (v : JsVal) : bool :=
  match v with
  | VUndefined | VNull => false
  | VBool b => b
  | VNum n => negb (n =? 0)
  | VStr s => negb (String.eqb s "")
  | VArr _ | VObj _ => true
  end.

Definition nullish (v : JsVal) : bool :=
  match v with
  | VUndefined | VNull => true
  | _ => false
  end.

Fixpoint assoc {A : Type} (k : string) (fs : list (string * A)) : option A :=
  match fs with
  | [] => None
  | (k', v) :: fs' => if String.eqb k k' then Some v else assoc k fs'
  end.

(** [v.k] for an own data property [k]: [None] is the [TypeError] raised on
    [undefined] and [null]; a missing property reads as [undefined]. *)
Definition getProp (v : JsVal) (k : string) : option JsVal :=
  match v with
  | VUndefined | VNull => None
  | VObj fs => Some (default VUndefined (assoc k fs))
  | _ => Some VUndefined
  end.

(** [v?.k]. *)
Definition getPropOpt (v : JsVal) (k : string) : JsVal :=
  default VUndefined (getProp v k).

(** Reading a field of a response body. *)
Definition field (k : string) (v : JsVal) : JsVal := getPropOpt v k.

(** ** Strings: [startsWith] and [replace] with a string pattern *)

Definition startsWith (pat s : string) : bool := String.prefix pat s.

Fixpoint dropChars (n : nat) (s : string) : string :=
  match n, s with
  | O, _ => s
  | S n', String _ s' => dropChars n' s'
  | S _, EmptyString => EmptyString
  end.

(** [s.replace(pat, rep)] for a string [pat]: only the first occurrence is
    replaced.  (The replacement strings of the gateway contain no [$].) *)
Fixpoint replace (pat rep s : string) : string :=
  if startsWith pat s then rep +:+ dropChars (String.length pat) s
  else match s with
       | EmptyString => EmptyString
       | String c s' => String c (replace pat rep s')
       end.

(** [s.includes(pat)]. *)
Fixpoint occurs (pat s : string) : bool :=
  startsWith pat s ||
  match s with
  | EmptyString => false
  | String _ s' => occurs pat s'
  end.

(** ** HTTP data *)

Record Request : Type := mkRequest {
  req_method : string;
  originalUrl : string;
  req_headers : list (string * string);   (* names lower-cased by Node *)
  req_body : JsVal;
  req_query : list (string * JsVal)
}.

(** What [res.status(s).json(b)] sends. *)
Record Response : Type := mkResponse {
  status : Z;
  body : JsVal
}.

(** The axios request configuration. *)
Record Config : Type := mkConfig {
  cfg_method : string;
  cfg_url : string;
  cfg_headers : option (list (string * string));
  cfg_timeout : Z;
  cfg_family : option Z;
  cfg_validateStatus : Z -> bool;
  cfg_data : option JsVal;
  cfg_params : option (list (string * JsVal))
}.

(** What the HTTP exchange behind one call of axios ends with, once the
    timeout of the configuration and the redirects have been dealt with
    (see [exchange] below): the answer that reaches axios' [settle], or a
    failure with its error code ([ECONNREFUSED], [ETIMEDOUT],
    [ECONNABORTED], ...). *)
Inductive Transport : Type :=
| Answered (st : Z) (data : JsVal)
| Failed (code : option string) (message : string).

Definition Network : Type := Config -> Transport.

(** The [response] object of axios: [response.status], [response.data]. *)
Record AxiosResponse : Type := mkAxiosResponse {
  resp_status : Z;
  resp_data : JsVal
}.

(** The error axios rejects with: [error.code], [error.message],
    [error.response]. *)
Record AxiosError : Type := mkAxiosError {
  err_code : option string;
  err_message : string;
  err_response : option AxiosResponse
}.

Inductive AxiosResult : Type :=
| Resolved (response : AxiosResponse)
| Rejected (error : AxiosError).

(** axios' [settle]: the code of the error raised for a refused status is
    [[ERR_BAD_REQUEST, ERR_BAD_RESPONSE][floor(status / 100) - 4]]. *)
Definition settleCode (st : Z) : option string :=
  let i := st / 100 - 4 in
  if i =? 0 then Some "ERR_BAD_REQUEST"
  else if i =? 1 then Some "ERR_BAD_RESPONSE"
  else None.

Definition axios (net : Network) (config : Config) : AxiosResult :=
  match net config with
  | Answered st data =>
      if cfg_validateStatus config st then Resolved (mkAxiosResponse st data)
      else Rejected (mkAxiosError (settleCode st)
                       ("Request failed with status code " +:+ pretty st)
                       (Some (mkAxiosResponse st data)))
  | Failed code message => Rejected (mkAxiosError code message None)
  end.

(** axios' default [validateStatus]. *)
Definition defaultValidateStatus (st : Z) : bool := (200 <=? st) && (st <? 300).

(** *** Below [settle]: the wire, the timeout and the redirects

    Neither [proxyRequest] nor [callService] sets [maxRedirects], so axios
    sends the request through its redirect-following transport, and both
    set [timeout].  What a server puts on the wire for one request is a
    response (status, Location header if any, body), a socket error, or
    nothing within the timeout. *)
Inductive WireAnswer : Type :=
| WResponse (st : Z) (location : option string) (data : JsVal)
| WError (code : option string) (message : string)
| WSilent.

Definition Wire : Type := Config -> WireAnswer.


(** One call of axios on the wire.  [next config st target] is the request
    the redirect-following transport issues after a redirect of status [st]
    to [target]; [redirectsLeft] is the number of redirects it still
    follows (the library's limit, which the gateway leaves at its positive
    default).  A request that stays unanswered is aborted by axios with
    [ECONNABORTED] and the message [timeout of <timeout>ms exceeded]. *)
Fixpoint exchange (next : Config -> Z -> string -> Config) (wire : Wire)
    (redirectsLeft : nat) (config : Config) : Transport :=
  match wire config with
  | WSilent =>
      Failed (Some "ECONNABORTED")
        ("timeout of " +:+ pretty (cfg_timeout config) +:+ "ms exceeded")
  | WError code message => Failed code message
  | WResponse st location data =>
      match location with
      | Some target =>
          if (300 <=? st) && (st <? 400) then
            match redirectsLeft with
            | O => Failed (Some "ERR_FR_TOO_MANY_REDIRECTS")
                     "Maximum number of redirects exceeded"
            | S n => exchange next wire n (next config st target)
            end
          else Answered st data
      | None => Answered st data
      end
  end.

(** ** Service registry *)

Record ServiceRecord : Type := mkServiceRecord {
  url : string;
  healthy : bool
}.

Definition recordToJs (r : ServiceRecord) : JsVal :=
  VObj [("url", VStr (url r)); ("healthy", VBool (healthy r))].

(** Modelled from the spec: [shared/serviceRegistry.js] is not part of the
    sources.  The registry is a directory with at most one record per
    service name; [discover(name)] returns the current record for [name]
    and fails with a ServiceNotFoundError if it is absent ([inr] carries
    the error's message); [listServices()] is the full snapshot. *)
Definition discover (reg : gmap string ServiceRecord) (name : string)
  : ServiceRecord + string :=
  match reg !! name with
  | Some r => inl r
  | None => inr ("Service not found: " +:+ name)
  end.

Definition listServices (reg : gmap string ServiceRecord)
  : list (string * ServiceRecord) := map_to_list reg.

(** [Object.keys(services)] as a JS array. *)
Definition serviceKeys (services : list (string * ServiceRecord)) : JsVal :=
  VArr (map (fun kv => VStr (fst kv)) services).

Definition servicesToJs (services : list (string * ServiceRecord)) : JsVal :=
  VObj (map (fun kv => (fst kv, recordToJs (snd kv))) services).

(** ** Observable calls *)

Inductive Event : Type :=
| EvDiscover (name : string)
| EvListServices
| EvAxios (config : Config).

Definition isAxios (e : Event) : bool :=
  match e with EvAxios _ => true | _ => false end.

Definition isDiscover (e : Event) : bool :=
  match e with EvDiscover _ => true | _ => false end.

(** ** Circuit breaker *)

Record Breaker : Type := mkBreaker {
  failures : N;
  isOpen : bool;
  isHalfOpen : bool;
  lastFailure : option Z          (* [None] is [null] *)
}.

(** [ToNumber] of a timestamp field: [null] counts as 0. *)
Definition toNumber (t : option Z) : Z := default 0 t.

Definition isCircuitOpen (cbs : gmap string Breaker) (serviceName : string)
    (now : Z) : bool * gmap string Breaker :=
  match cbs !! serviceName with
  | None => (false, cbs)
  | Some breaker =>
      if isOpen breaker && (30000 <? now - toNumber (lastFailure breaker))
      then (false,
            <[serviceName := mkBreaker (failures breaker) false true
                                       (lastFailure breaker)]> cbs)
      else (isOpen breaker, cbs)
  end.

Definition recordFailure (cbs : gmap string Breaker) (serviceName : string)
    (now : Z) : gmap string Breaker :=
  let breaker := default (mkBreaker 0 false false None) (cbs !! serviceName) in
  let n := (failures breaker + 1)%N in
  let breaker' :=
    if (3 <=? n)%N then mkBreaker n true false (Some now)
    else mkBreaker n (isOpen breaker) (isHalfOpen breaker) (Some now) in
  <[serviceName := breaker']> cbs.

Definition resetCircuitBreaker (cbs : gmap string Breaker)
    (serviceName : string) : gmap string Breaker :=
  match cbs !! serviceName with
  | Some breaker =>
      <[serviceName := mkBreaker 0 false false (lastFailure breaker)]> cbs
  | None => cbs
  end.

(** The view of one service's breaker; a service without an entry has never
    failed since the gateway started. *)
Definition failuresOf (cbs : gmap string Breaker) (serviceName : string) : N :=
  match cbs !! serviceName with Some b => failures b | None => 0%N end.

Definition isOpenOf (cbs : gmap string Breaker) (serviceName : string) : bool :=
  match cbs !! serviceName with Some b => isOpen b | None => false end.

Definition isHalfOpenOf (cbs : gmap string Breaker) (serviceName : string) : bool :=
  match cbs !! serviceName with Some b => isHalfOpen b | None => false end.

Definition lastFailureOf (cbs : gmap string Breaker) (serviceName : string)
  : option Z :=
  match cbs !! serviceName with Some b => lastFailure b | None => None end.

(** Closed: no recorded failure, neither open nor half-open. *)
Definition closedFor (cbs : gmap string Breaker) (serviceName : string) : Prop :=
  failuresOf cbs serviceName = 0%N /\
  isOpenOf cbs serviceName = false /\
  isHalfOpenOf cbs serviceName = false.

(** ** Path rewriting (the middle of [proxyRequest]) *)

Definition ensureLeadingSlash (targetPath : string) : string :=
  if startsWith "/" targetPath then targetPath else "/" +:+ targetPath.

Definition orCollectionRoot (root targetPath : string) : string :=
  if String.eqb targetPath "/" || String.eqb targetPath "" then root
  else targetPath.

Definition targetPathFor (serviceName originalPath : string) : string :=
  if String.eqb serviceName "user-service" then
    let targetPath :=
      if startsWith "/api/auth" originalPath
      then replace "/api/auth" "/auth" originalPath
      else replace "/api/users" "/users" originalPath in
    orCollectionRoot "/users" (ensureLeadingSlash targetPath)
  else if String.eqb serviceName "item-service" then
    let targetPath :=
      if startsWith "/api/categories" originalPath
      then replace "/api/categories" "/categories" originalPath
      else if startsWith "/api/search/items" originalPath
      then replace "/api/search/items" "/search" originalPath
      else replace "/api/items" "/items" originalPath in
    orCollectionRoot "/items" (ensureLeadingSlash targetPath)
  else if String.eqb serviceName "list-service" then
    let targetPath := replace "/api/lists" "/lists" originalPath in
    orCollectionRoot "/lists" (ensureLeadingSlash targetPath)
  else "".

(** The services the proxy routes of [setupRoutes] forward to, and the
    public prefixes that [targetPathFor] looks for in each case. *)
Definition proxiedServices : list string :=
  ["user-service"; "item-service"; "list-service"].

Definition publicPrefixes (serviceName : string) : list string :=
  if String.eqb serviceName "user-service" then ["/api/auth"; "/api/users"]
  else if String.eqb serviceName "item-service"
  then ["/api/categories"; "/api/search/items"; "/api/items"]
  else if String.eqb serviceName "list-service" then ["/api/lists"]
  else [].

(** ** The proxy *)

Definition includes (xs : list string) (x : string) : bool :=
  existsb (String.eqb x) xs.

Definition proxyHeaders (req : Request) : list (string * string) :=
  filter (fun h => negb (String.eqb (fst h) "host") &&
                   negb (String.eqb (fst h) "content-length"))
         (req_headers req).

Definition proxyConfig (service : ServiceRecord) (serviceName : string)
    (req : Request) : Config :=
  {| cfg_method := req_method req;
     cfg_url := url service +:+ targetPathFor serviceName (originalUrl req);
     cfg_headers := Some (proxyHeaders req);
     cfg_timeout := 10000;
     cfg_family := Some 4;
     cfg_validateStatus := fun st => st <? 500;
     cfg_data := if includes ["POST"; "PUT"; "PATCH"] (req_method req)
                 then Some (req_body req) else None;
     cfg_params := match req_query req with
                   | [] => None
                   | _ :: _ => Some (req_query req)
                   end |}.

Record Outcome : Type := mkOutcome {
  out_breakers : gmap string Breaker;
  out_response : Response;
  out_trace : list Event
}.

Definition circuitOpenBody (serviceName : string) : JsVal :=
  VObj [("success", VBool false);
        ("message", VStr ("Serviço " +:+ serviceName +:+ " temporariamente indisponível"));
        ("service", VStr serviceName)].

Definition notFoundBody (serviceName : string)
    (availableServices : list (string * ServiceRecord)) : JsVal :=
  VObj [("success", VBool false);
        ("message", VStr ("Serviço " +:+ serviceName +:+ " não encontrado"));
        ("service", VStr serviceName);
        ("availableServices", serviceKeys availableServices)].

Definition unavailableBody (serviceName : string) (code : option string) : JsVal :=
  VObj [("success", VBool false);
        ("message", VStr ("Serviço " +:+ serviceName +:+ " indisponível"));
        ("service", VStr serviceName);
        ("error", match code with Some c => VStr c | None => VUndefined end)].

Definition internalErrorBody (message : string) : JsVal :=
  VObj [("success", VBool false);
        ("message", VStr "Erro interno do gateway");
        ("service", VStr "api-gateway");
        ("error", VStr message)].

Definition isNetworkCode (code : option string) : bool :=
  match code with
  | Some c => String.eqb c "ECONNREFUSED" || String.eqb c "ETIMEDOUT"
  | None => false
  end.

(** The [catch] block of [proxyRequest], after [recordFailure]. *)
Definition proxyErrorResponse (serviceName : string) (error : AxiosError)
  : Response :=
  if isNetworkCode (err_code error)
  then mkResponse 503 (unavailableBody serviceName (err_code error))
  else match err_response error with
       | Some r => mkResponse (resp_status r) (resp_data r)
       | None => mkResponse 500 (internalErrorBody (err_message error))
       end.

(** [proxyRequest(serviceName, req, res, next)].  [now] is the clock read by
    [isCircuitOpen] on entry, [later] the clock read by [recordFailure] when
    the forwarded call has failed. *)
Definition proxyRequest (reg : gmap string ServiceRecord) (net : Network)
    (now later : Z) (cbs : gmap string Breaker) (serviceName : string)
    (req : Request) : Outcome :=
  let (open, cbs1) := isCircuitOpen cbs serviceName now in
  if open then
    mkOutcome cbs1 (mkResponse 503 (circuitOpenBody serviceName)) []
  else
    match discover reg serviceName with
    | inr _ =>
        let availableServices := listServices reg in
        mkOutcome cbs1
          (mkResponse 503 (notFoundBody serviceName availableServices))
          [EvDiscover serviceName; EvListServices]
    | inl service =>
        let config := proxyConfig service serviceName req in
        let trace := [EvDiscover serviceName; EvAxios config] in
        match axios net config with
        | Resolved response =>
            mkOutcome (resetCircuitBreaker cbs1 serviceName)
              (mkResponse (resp_status response) (resp_data response)) trace
        | Rejected error =>
            mkOutcome (recordFailure cbs1 serviceName later)
              (proxyErrorResponse serviceName error) trace
        end
    end.



(** ** Aggregation *)

(** One entry of [Promise.allSettled]: [value] of a fulfilled promise, or
    [reason.message] of a rejected one. *)
Inductive Settled : Type :=
| Fulfilled (value : JsVal)
| RejectedWith (message : string).

(** [req.query[k]]. *)
Definition queryParam (req : Request) (k : string) : JsVal :=
  default VUndefined (assoc k (req_query req)).

(** [req.header(name)]. *)
Definition header (req : Request) (name : string) : option string :=
  assoc name (req_headers req).

(** Truthiness of a header value ([undefined], [null] or a string). *)
Definition present (h : option string) : bool :=
  match h with
  | Some s => negb (String.eqb s "")
  | None => false
  end.

(** [callService(serviceName, path, method, authHeader, params)]: a failing
    [discover] rejects the promise like a failing [axios] does. *)
Definition callService (reg : gmap string ServiceRecord) (net : Network)
    (serviceName path method : string) (authHeader : option string)
    (params : list (string * JsVal)) : Settled * list Event :=
  match discover reg serviceName with
  | inr message => (RejectedWith message, [EvDiscover serviceName])
  | inl service =>
      let config :=
        {| cfg_method := method;
           cfg_url := url service +:+ path;
           cfg_headers := match authHeader with
                          | Some h => if present authHeader
                                      then Some [("Authorization", h)] else None
                          | None => None
                          end;
           cfg_timeout := 5000;
           cfg_family := None;
           cfg_validateStatus := defaultValidateStatus;
           cfg_data := None;
           cfg_params := if String.eqb method "GET"
                         then match params with
                              | [] => None
                              | _ :: _ => Some params
                              end
                         else None |} in
      (match axios net config with
       | Resolved response => Fulfilled (resp_data response)
       | Rejected error => RejectedWith (err_message error)
       end,
       [EvDiscover serviceName; EvAxios config])
  end.

(** One label of the dashboard:
    [{ available, data: r.value.data | null, error: r.reason.message | null }].
    [None] is the [TypeError] of [r.value.data] on a [null] or [undefined]
    payload. *)
Definition dashboardLabel (r : Settled) : option JsVal :=
  match r with
  | Fulfilled value =>
      data ← getProp value "data";
      Some (VObj [("available", VBool true); ("data", data); ("error", VNull)])
  | RejectedWith message =>
      Some (VObj [("available", VBool false); ("data", VNull);
                  ("error", VStr message)])
  end.

(** One label of the global search:
    [{ available, results: r.value.data?.results || r.value.data | [], error }]. *)
Definition searchLabel (r : Settled) : option JsVal :=
  match r with
  | Fulfilled value =>
      data ← getProp value "data";
      let results := getPropOpt data "results" in
      Some (VObj [("available", VBool true);
                  ("results", if truthy results then results else data);
                  ("error", VNull)])
  | RejectedWith message =>
      Some (VObj [("available", VBool false); ("results", VArr []);
                  ("error", VStr message)])
  end.

(** [getDashboard(req, res)]; [timestamp] is [new Date().toISOString()]. *)
Definition getDashboard (reg : gmap string ServiceRecord) (net : Network)
    (timestamp : string) (req : Request) : Response * list Event :=
  let authHeader := header req "authorization" in
  if negb (present authHeader) then
    (mkResponse 401
       (VObj [("success", VBool false);
              ("message", VStr "Token de autenticação obrigatório para acessar o dashboard")]),
     [])
  else
    let (userResponse, t1) :=
      callService reg net "user-service" "/users/profile" "GET" authHeader [] in
    let (itemsResponse, t2) :=
      callService reg net "item-service" "/items" "GET" None [("limit", VNum 10)] in
    let (listsResponse, t3) :=
      callService reg net "list-service" "/lists" "GET" authHeader [("limit", VNum 5)] in
    let (categoriesResponse, t4) :=
      callService reg net "item-service" "/categories" "GET" None [] in
    let trace := (t1 ++ t2 ++ t3 ++ t4 ++ [EvListServices])%list in
    let dashboard :=
      profile ← dashboardLabel userResponse;
      lists ← dashboardLabel listsResponse;
      items ← dashboardLabel itemsResponse;
      categories ← dashboardLabel categoriesResponse;
      Some (VObj [("timestamp", VStr timestamp);
                  ("domain", VStr "Sistema de Lista de Compras");
                  ("architecture", VStr "Microservices with NoSQL");
                  ("database_approach", VStr "Database per Service");
                  ("services_status", servicesToJs (listServices reg));
                  ("user_data", VObj [("profile", profile)]);
                  ("shopping_data", VObj [("lists", lists); ("items", items);
                                          ("categories", categories)])]) in
    match dashboard with
    | Some d =>
        (mkResponse 200 (VObj [("success", VBool true); ("data", d)]), trace)
    | None =>
        (mkResponse 500
           (VObj [("success", VBool false);
                  ("message", VStr "Erro ao agregar dados do dashboard")]),
         trace)
    end.

(** The double-quote character of the message of [globalSearch]. *)
Definition dquote : string := String (ascii_of_nat 34) EmptyString.

(** [globalSearch(req, res)]. *)
Definition globalSearch (reg : gmap string ServiceRecord) (net : Network)
    (req : Request) : Response * list Event :=
  let q := queryParam req "q" in
  if negb (truthy q) then
    (mkResponse 400
       (VObj [("success", VBool false);
              ("message", VStr ("Parâmetro de busca " +:+ dquote +:+ "q" +:+ dquote
                               +:+ " é obrigatório"))]),
     [])
  else
    let authHeader := header req "authorization" in
    let (itemResults, t1) :=
      callService reg net "item-service" "/search" "GET" None [("q", q)] in
    let (listResults, t2) :=
      if present authHeader then
        let (r, t) := callService reg net "list-service" "/search" "GET"
                        authHeader [("q", q); ("limit", VNum 10)] in
        (Some r, t)
      else (None, []) in
    let trace := (t1 ++ t2)%list in
    let results :=
      items ← searchLabel itemResults;
      match listResults with
      | Some r =>
          lists ← searchLabel r;
          Some (VObj [("query", q); ("items", items); ("lists", lists)])
      | None => Some (VObj [("query", q); ("items", items)])
      end in
    match results with
    | Some d =>
        (mkResponse 200 (VObj [("success", VBool true); ("data", d)]), trace)
    | None =>
        (mkResponse 500
           (VObj [("success", VBool false); ("message", VStr "Erro na busca")]),
         trace)
    end.

(** ** Vocabulary of the properties *)

(** The invariant of the table: an entry that is open or half-open has at
    least 3 recorded failures. *)
Definition breakerInv (b : Breaker) : Prop :=
  isOpen b || isHalfOpen b = true -> (3 <= failures b)%N.

Definition tableInv (cbs : gmap string Breaker) : Prop :=
  forall name b, cbs !! name = Some b -> breakerInv b.

(** The inputs of one call of [proxyRequest] that come from outside the
    gateway: the registry and the network as they are at that moment, the
    two clock readings and the inbound request. *)
Record Call : Type := mkCall {
  c_reg : gmap string ServiceRecord;
  c_net : Network;
  c_now : Z;
  c_later : Z;
  c_req : Request
}.

Definition run (cbs : gmap string Breaker) (name : string) (c : Call) : Outcome :=
  proxyRequest (c_reg c) (c_net c) (c_now c) (c_later c) cbs name (c_req c).

(** How a call ends. *)
Inductive Verdict : Type :=
| ShortCircuited      (* breaker open: answered without any lookup *)
| Unresolved          (* no registry entry *)
| Succeeded           (* forwarded, axios resolved *)
| FailedForward.      (* forwarded, axios rejected *)

Definition verdict (cbs : gmap string Breaker) (name : string) (c : Call)
  : Verdict :=
  if fst (isCircuitOpen cbs name (c_now c)) then ShortCircuited
  else match discover (c_reg c) name with
       | inr _ => Unresolved
       | inl service =>
           match axios (c_net c) (proxyConfig service name (c_req c)) with
           | Resolved _ => Succeeded
           | Rejected _ => FailedForward
           end
       end.

(** [failureRun name n cbs cbs']: from [cbs] the gateway reaches [cbs'] by a
    sequence of calls among which exactly [n] are failed forwards to [name]
    and none is a successful forward to [name]; calls to other services and
    calls to [name] that are not forwarded may come in between. *)
Inductive failureRun (name : string)
  : nat -> gmap string Breaker -> gmap string Breaker -> Prop :=
| run_start cbs : failureRun name 0 cbs cbs
| run_failure n cbs cbs' c :
    failureRun name n cbs cbs' ->
    verdict cbs' name c = FailedForward ->
    failureRun name (S n) cbs (out_breakers (run cbs' name c))
| run_skip n cbs cbs' other c :
    failureRun name n cbs cbs' ->
    other <> name \/ verdict cbs' other c = ShortCircuited
                  \/ verdict cbs' other c = Unresolved ->
    failureRun name n cbs (out_breakers (run cbs' other c)).

(** [{ success: false, message: <string>, service: <svc>, ... }]. *)
Definition envelope (svc : string) (b : JsVal) : Prop :=
  field "success" b = VBool false /\
  (exists m, field "message" b = VStr m) /\
  field "service" b = VStr svc.

(** [{ success: false, message: <string> }] without a [service] field. *)
Definition bareEnvelope (b : JsVal) : Prop :=
  field "success" b = VBool false /\
  (exists m, field "message" b = VStr m) /\
  field "service" b = VUndefined.

(** [b.k1.k2...] on a response body. *)
Definition path (ks : list string) (b : JsVal) : JsVal :=
  fold_left (fun v k => field k v) ks b.

(** The payload of a settled call can be read: it was rejected, or it was
    fulfilled with something else than [null] or [undefined]. *)
Definition payloadReadable (r : Settled) : bool :=
  match r with
  | Fulfilled value => negb (nullish value)
  | RejectedWith _ => true
  end.

(** What the label [l] built for the settled call [r] says: available with a
    [null] error, or unavailable with the reason as error and [empty] as
    payload under the key [payload]. *)
Definition labelFor (payload : string) (empty : JsVal) (r : Settled)
    (l : JsVal) : Prop :=
  match r with
  | Fulfilled _ =>
      field "available" l = VBool true /\ field "error" l = VNull
  | RejectedWith message =>
      field "available" l = VBool false /\
      field payload l = empty /\
      field "error" l = VStr message
  end.

(** ** Concrete tables, registries, networks and requests *)

Definition itemRegistry : gmap string ServiceRecord :=
  <["item-service" := mkServiceRecord "http://localhost:3003" true]> ∅.

Definition userRegistry : gmap string ServiceRecord :=
  <["user-service" := mkServiceRecord "http://localhost:3001" true]> ∅.

Definition getItems : Request :=
  mkRequest "GET" "/api/items" [("host", "localhost:3000")] VUndefined [].

Definition noAuthorization : Request :=
  mkRequest "GET" "/api/dashboard" [("host", "localhost:3000")] VUndefined [].

Definition searchWithoutQ : Request :=
  mkRequest "GET" "/api/search?q=" [("authorization", "Bearer t")] VUndefined
    [("q", VStr "")].

Definition searchArroz (headers : list (string * string)) : Request :=
  mkRequest "GET" "/api/search?q=arroz" headers VUndefined [("q", VStr "arroz")].

Definition withToken : list (string * string) :=
  [("host", "localhost:3000"); ("authorization", "Bearer t")].

Definition refusing : Network :=
  fun _ => Failed (Some "ECONNREFUSED") "connect ECONNREFUSED 127.0.0.1:3003".

Definition answering (st : Z) (data : JsVal) : Network :=
  fun _ => Answered st data.

Definition failingCall (t : Z) : Call :=
  mkCall itemRegistry refusing t (t + 10) getItems.

Definition afterThreeFailures : gmap string Breaker :=
  out_breakers (run
    (out_breakers (run
      (out_breakers (run ∅ "item-service" (failingCall 1000)))
      "item-service" (failingCall 2000)))
    "item-service" (failingCall 3000)).

Definition openedAtZero : gmap string Breaker :=
  <["item-service" := mkBreaker 3 true false (Some 0)]> ∅.

(** ** Sequences of requests and the shape of stored entries *)

(** The table after a sequence of proxied requests, each with the service
    its route targets. *)
Fixpoint runAll (cbs : gmap string Breaker) (calls : list (string * Call))
  : gmap string Breaker :=
  match calls with
  | [] => cbs
  | (name, c) :: rest => runAll (out_breakers (run cbs name c)) rest
  end.

(** What holds of every entry the gateway ever stores: it carries the time
    of a failure, it is not open and half-open at once, and it is open or
    half-open exactly when it has 3 failures or more. *)
Definition entryInv (b : Breaker) : Prop :=
  is_Some (lastFailure b) /\
  (isOpen b = true -> isHalfOpen b = false) /\
  (isOpen b || isHalfOpen b = true <-> (3 <= failures b)%N).

(** A transport that gives up with axios' own timeout error. *)
Definition timingOut : Network :=
  fun _ => Failed (Some "ECONNABORTED") "timeout of 10000ms exceeded".

(** The services looked up in the registry, in the order of the lookups. *)
Fixpoint discovered (trace : list Event) : list string :=
  match trace with
  | [] => []
  | EvDiscover name :: rest => name :: discovered rest
  | _ :: rest => discovered rest
  end.

(** A redirected GET is the same request at the target url. *)
Definition sameRequestAt (config : Config) (st : Z) (target : string) : Config :=
  {| cfg_method := cfg_method config;
     cfg_url := target;
     cfg_headers := cfg_headers config;
     cfg_timeout := cfg_timeout config;
     cfg_family := cfg_family config;
     cfg_validateStatus := cfg_validateStatus config;
     cfg_data := cfg_data config;
     cfg_params := cfg_params config |}.


(** A downstream that accepts the connection and never answers. *)
Definition silent : Wire := fun _ => WSilent.


(** [GET /api/search?q=&q=]: the query parser delivers the repeated
    parameter as an array of two empty strings. *)
Definition searchRepeatedEmptyQ : Request :=
  mkRequest "GET" "/api/search?q=&q=" [] VUndefined
    [("q", VArr [VStr ""; VStr ""])].

Definition getItemsFields : Request :=
  mkRequest "GET" "/api/items?fields=name"
    [("host", "localhost:3000"); ("authorization", "Bearer t")] VUndefined
    [("fields", VStr "name")].

(** * Properties *)

(** ** The breaker table *)

Section BreakerTable.

Implicit Types (cbs : gmap string Breaker) (name other : string) (now : Z).

Lemma isCircuitOpen_true cbs name now :
  fst (isCircuitOpen cbs name now) = true ->
  snd (isCircuitOpen cbs name now) = cbs /\ isOpenOf cbs name = true.
Proof.
  unfold isCircuitOpen, isOpenOf.
  destruct (cbs !! name) as [b|]; simpl; [|discriminate].
  destruct (isOpen b && _); simpl; [discriminate|]. auto.
Qed.

Lemma isCircuitOpen_failures cbs name other now :
  failuresOf (snd (isCircuitOpen cbs other now)) name = failuresOf cbs name.
Proof.
  unfold isCircuitOpen, failuresOf.
  destruct (cbs !! other) as [b|] eqn:Hb; simpl; [|reflexivity].
  destruct (isOpen b && _); simpl; [|reflexivity].
  destruct (decide (other = name)) as [->|Hne].
  - rewrite lookup_insert_eq, Hb. reflexivity.
  - rewrite lookup_insert_ne by assumption. reflexivity.
Qed.

Lemma isCircuitOpen_lastFailure cbs name other now :
  lastFailureOf (snd (isCircuitOpen cbs other now)) name = lastFailureOf cbs name.
Proof.
  unfold isCircuitOpen, lastFailureOf.
  destruct (cbs !! other) as [b|] eqn:Hb; simpl; [|reflexivity].
  destruct (isOpen b && _); simpl; [|reflexivity].
  destruct (decide (other = name)) as [->|Hne].
  - rewrite lookup_insert_eq, Hb. reflexivity.
  - rewrite lookup_insert_ne by assumption. reflexivity.
Qed.

Lemma isCircuitOpen_stays_closed cbs name other now :
  isOpenOf cbs name = false ->
  isOpenOf (snd (isCircuitOpen cbs other now)) name = false.
Proof.
  intros Ho. unfold isCircuitOpen.
  destruct (cbs !! other) as [b|] eqn:Hb; simpl; [|assumption].
  destruct (isOpen b && _); simpl; [|assumption].
  unfold isOpenOf. destruct (decide (other = name)) as [->|Hne].
  - rewrite lookup_insert_eq. reflexivity.
  - rewrite lookup_insert_ne by assumption. exact Ho.
Qed.

Lemma isCircuitOpen_other cbs name other now :
  other <> name -> snd (isCircuitOpen cbs other now) !! name = cbs !! name.
Proof.
  intros Hne. unfold isCircuitOpen.
  destruct (cbs !! other) as [b|]; simpl; [|reflexivity].
  destruct (isOpen b && _); simpl; [|reflexivity].
  apply lookup_insert_ne; assumption.
Qed.

(** Within the cool-down an open breaker answers "open"; once more than
    30000 ms have passed it answers "not open" and becomes half-open. *)
Lemma isCircuitOpen_spec cbs name now b :
  cbs !! name = Some b -> isOpen b = true ->
  fst (isCircuitOpen cbs name now)
  = negb (30000 <? now - toNumber (lastFailure b)).
Proof.
  intros Hb Ho. unfold isCircuitOpen. rewrite Hb, Ho. simpl.
  destruct (30000 <? _); reflexivity.
Qed.

Lemma recordFailure_lookup cbs name now :
  recordFailure cbs name now !! name
  = Some (let n := (failuresOf cbs name + 1)%N in
          if (3 <=? n)%N then mkBreaker n true false (Some now)
          else mkBreaker n (isOpenOf cbs name) (isHalfOpenOf cbs name) (Some now)).
Proof.
  unfold recordFailure, failuresOf, isOpenOf, isHalfOpenOf.
  rewrite lookup_insert_eq. destruct (cbs !! name); reflexivity.
Qed.

Lemma recordFailure_other cbs name other now :
  other <> name -> recordFailure cbs other now !! name = cbs !! name.
Proof. intros Hne. unfold recordFailure. apply lookup_insert_ne; assumption. Qed.

Lemma recordFailure_failures cbs name now :
  failuresOf (recordFailure cbs name now) name = (failuresOf cbs name + 1)%N.
Proof.
  unfold failuresOf at 1. rewrite recordFailure_lookup. simpl.
  destruct (3 <=? _)%N; reflexivity.
Qed.

Lemma recordFailure_lastFailure cbs name now :
  lastFailureOf (recordFailure cbs name now) name = Some now.
Proof.
  unfold lastFailureOf. rewrite recordFailure_lookup. simpl.
  destruct (3 <=? _)%N; reflexivity.
Qed.

Lemma recordFailure_opens cbs name now :
  (2 <= failuresOf cbs name)%N ->
  isOpenOf (recordFailure cbs name now) name = true /\
  isHalfOpenOf (recordFailure cbs name now) name = false.
Proof.
  intros Hn. unfold isOpenOf, isHalfOpenOf. rewrite recordFailure_lookup. simpl.
  destruct (3 <=? _)%N eqn:E; [split; reflexivity|].
  apply N.leb_gt in E. lia.
Qed.

Lemma resetCircuitBreaker_closed cbs name :
  closedFor (resetCircuitBreaker cbs name) name.
Proof.
  unfold closedFor, failuresOf, isOpenOf, isHalfOpenOf, resetCircuitBreaker.
  destruct (cbs !! name) as [b|] eqn:Hb.
  - rewrite lookup_insert_eq. simpl. auto.
  - rewrite Hb. auto.
Qed.

Lemma resetCircuitBreaker_other cbs name other :
  other <> name -> resetCircuitBreaker cbs other !! name = cbs !! name.
Proof.
  intros Hne. unfold resetCircuitBreaker.
  destruct (cbs !! other); [|reflexivity].
  apply lookup_insert_ne; assumption.
Qed.

Lemma tableInv_empty : tableInv ∅.
Proof. intros name b H. rewrite lookup_empty in H. discriminate. Qed.

Lemma tableInv_insert cbs name b :
  tableInv cbs -> breakerInv b -> tableInv (<[name := b]> cbs).
Proof.
  intros Hinv Hb other b' H.
  destruct (decide (name = other)) as [->|Hne].
  - rewrite lookup_insert_eq in H. injection H as <-. exact Hb.
  - rewrite lookup_insert_ne in H by assumption. eauto.
Qed.

Lemma isCircuitOpen_inv cbs name now :
  tableInv cbs -> tableInv (snd (isCircuitOpen cbs name now)).
Proof.
  intros Hinv. unfold isCircuitOpen.
  destruct (cbs !! name) as [b|] eqn:Hb; simpl; [|assumption].
  destruct (isOpen b && _) eqn:E; simpl; [|assumption].
  apply tableInv_insert; [assumption|].
  intros _. simpl. apply (Hinv _ _ Hb).
  apply andb_true_iff in E as [-> _]. reflexivity.
Qed.

Lemma recordFailure_inv cbs name now :
  tableInv cbs -> tableInv (recordFailure cbs name now).
Proof.
  intros Hinv. unfold recordFailure.
  apply tableInv_insert; [assumption|].
  destruct (cbs !! name) as [b|] eqn:Hb; simpl.
  - destruct (3 <=? _)%N eqn:E.
    + intros _. simpl. apply N.leb_le in E. exact E.
    + intros H. simpl in *. specialize (Hinv _ _ Hb H). lia.
  - intros H. simpl in H. discriminate.
Qed.

Lemma resetCircuitBreaker_inv cbs name :
  tableInv cbs -> tableInv (resetCircuitBreaker cbs name).
Proof.
  intros Hinv. unfold resetCircuitBreaker.
  destruct (cbs !! name) as [b|]; [|assumption].
  apply tableInv_insert; [assumption|].
  intros H. simpl in H. discriminate.
Qed.

End BreakerTable.

(** ** One proxied request *)

Section Proxy.

Variables (reg : gmap string ServiceRecord) (net : Network) (now later : Z).
Variables (cbs : gmap string Breaker) (name : string) (req : Request).

Lemma proxyRequest_open :
  fst (isCircuitOpen cbs name now) = true ->
  proxyRequest reg net now later cbs name req
  = mkOutcome cbs (mkResponse 503 (circuitOpenBody name)) [].
Proof.
  intros H. destruct (isCircuitOpen_true _ _ _ H) as [Hs _].
  unfold proxyRequest. destruct (isCircuitOpen cbs name now) as [o cbs1].
  simpl in *. subst. reflexivity.
Qed.

Lemma proxyRequest_unresolved message :
  fst (isCircuitOpen cbs name now) = false ->
  discover reg name = inr message ->
  proxyRequest reg net now later cbs name req
  = mkOutcome (snd (isCircuitOpen cbs name now))
      (mkResponse 503 (notFoundBody name (listServices reg)))
      [EvDiscover name; EvListServices].
Proof.
  intros H Hd. unfold proxyRequest.
  destruct (isCircuitOpen cbs name now) as [o cbs1]. simpl in *. subst.
  rewrite Hd. reflexivity.
Qed.

Lemma proxyRequest_resolved service response :
  fst (isCircuitOpen cbs name now) = false ->
  discover reg name = inl service ->
  axios net (proxyConfig service name req) = Resolved response ->
  proxyRequest reg net now later cbs name req
  = mkOutcome (resetCircuitBreaker (snd (isCircuitOpen cbs name now)) name)
      (mkResponse (resp_status response) (resp_data response))
      [EvDiscover name; EvAxios (proxyConfig service name req)].
Proof.
  intros H Hd Ha. unfold proxyRequest.
  destruct (isCircuitOpen cbs name now) as [o cbs1]. simpl in *. subst.
  rewrite Hd, Ha. reflexivity.
Qed.

Lemma proxyRequest_rejected service error :
  fst (isCircuitOpen cbs name now) = false ->
  discover reg name = inl service ->
  axios net (proxyConfig service name req) = Rejected error ->
  proxyRequest reg net now later cbs name req
  = mkOutcome (recordFailure (snd (isCircuitOpen cbs name now)) name later)
      (proxyErrorResponse name error)
      [EvDiscover name; EvAxios (proxyConfig service name req)].
Proof.
  intros H Hd Ha. unfold proxyRequest.
  destruct (isCircuitOpen cbs name now) as [o cbs1]. simpl in *. subst.
  rewrite Hd, Ha. reflexivity.
Qed.

(** The table after a call is the table after [isCircuitOpen], possibly
    followed by a reset or a recorded failure of the same service. *)
Lemma proxyRequest_breakers :
  let cbs1 := snd (isCircuitOpen cbs name now) in
  let out := out_breakers (proxyRequest reg net now later cbs name req) in
  out = cbs1 \/ out = resetCircuitBreaker cbs1 name
             \/ out = recordFailure cbs1 name later.
Proof.
  unfold proxyRequest. destruct (isCircuitOpen cbs name now) as [o cbs1]. simpl.
  destruct o; [auto|].
  destruct (discover reg name); [|auto].
  destruct (axios net _); simpl; auto.
Qed.

Lemma proxyRequest_other other :
  name <> other ->
  out_breakers (proxyRequest reg net now later cbs name req) !! other
  = cbs !! other.
Proof.
  intros Hne.
  destruct proxyRequest_breakers as [-> | [-> | ->]].
  - apply isCircuitOpen_other; assumption.
  - rewrite resetCircuitBreaker_other by assumption.
    apply isCircuitOpen_other; assumption.
  - rewrite recordFailure_other by assumption.
    apply isCircuitOpen_other; assumption.
Qed.

Lemma proxyRequest_inv :
  tableInv cbs ->
  tableInv (out_breakers (proxyRequest reg net now later cbs name req)).
Proof.
  intros Hinv.
  destruct proxyRequest_breakers as [-> | [-> | ->]].
  - apply isCircuitOpen_inv; assumption.
  - apply resetCircuitBreaker_inv, isCircuitOpen_inv; assumption.
  - apply recordFailure_inv, isCircuitOpen_inv; assumption.
Qed.

End Proxy.

Lemma verdict_short cbs name c :
  verdict cbs name c = ShortCircuited ->
  fst (isCircuitOpen cbs name (c_now c)) = true.
Proof.
  unfold verdict. destruct (fst _); [reflexivity|].
  destruct (discover _ _); [|discriminate]. destruct (axios _ _); discriminate.
Qed.

Lemma verdict_unresolved cbs name c :
  verdict cbs name c = Unresolved ->
  fst (isCircuitOpen cbs name (c_now c)) = false /\
  exists message, discover (c_reg c) name = inr message.
Proof.
  unfold verdict. destruct (fst _); [discriminate|].
  destruct (discover _ _); [destruct (axios _ _); discriminate|]. eauto.
Qed.

Lemma verdict_failed cbs name c :
  verdict cbs name c = FailedForward ->
  fst (isCircuitOpen cbs name (c_now c)) = false /\
  exists service error,
    discover (c_reg c) name = inl service /\
    axios (c_net c) (proxyConfig service name (c_req c)) = Rejected error.
Proof.
  unfold verdict. destruct (fst _); [discriminate|].
  destruct (discover _ _) as [service|]; [|discriminate].
  destruct (axios _ _) eqn:E; [discriminate|]. eauto.
Qed.

Lemma run_failed_breakers cbs name c :
  verdict cbs name c = FailedForward ->
  out_breakers (run cbs name c)
  = recordFailure (snd (isCircuitOpen cbs name (c_now c))) name (c_later c).
Proof.
  intros H. destruct (verdict_failed _ _ _ H) as (Hc & service & error & Hd & Ha).
  unfold run. erewrite proxyRequest_rejected by eassumption. reflexivity.
Qed.

(** A run with [n] failed forwards and no successful one has added exactly
    [n] to the failure counter of the service. *)
Lemma failureRun_count name n cbs cbs' :
  failureRun name n cbs cbs' ->
  failuresOf cbs' name = (failuresOf cbs name + N.of_nat n)%N.
Proof.
  induction 1 as [cbs | n cbs cbs' c Hrun IH Hv | n cbs cbs' other c Hrun IH Hv].
  - simpl. lia.
  - rewrite run_failed_breakers by assumption.
    rewrite recordFailure_failures, isCircuitOpen_failures, IH. lia.
  - rewrite <- IH. destruct Hv as [Hne | [Hv | Hv]].
    + unfold failuresOf, run. rewrite proxyRequest_other by assumption.
      reflexivity.
    + apply verdict_short in Hv. unfold run.
      rewrite proxyRequest_open by assumption. reflexivity.
    + apply verdict_unresolved in Hv as [Hc [message Hd]]. unfold run.
      erewrite proxyRequest_unresolved by eassumption. simpl.
      apply isCircuitOpen_failures.
Qed.

(** ** C1: three failures open the breaker *)

(** X4.  Fewer than three failed forwards leave a closed breaker closed,
    whatever other requests come in between: the threshold is exactly 3. *)
Lemma fewer_failures_stay_closed name n cbs cbs' :
  failureRun name n cbs cbs' ->
  failuresOf cbs name = 0%N -> isOpenOf cbs name = false ->
  (n < 3)%nat ->
  isOpenOf cbs' name = false.
Proof.
  intros Hrun H0 Ho.
  induction Hrun as [cbs | n cbs cbs' c Hrun IH Hv | n cbs cbs' other c Hrun IH Hv];
    intros Hn.
  - assumption.
  - rewrite run_failed_breakers by assumption.
    unfold isOpenOf. rewrite recordFailure_lookup.
    rewrite isCircuitOpen_failures, (failureRun_count _ _ _ _ Hrun), H0.
    cbv zeta. destruct (3 <=? _)%N eqn:E; [apply N.leb_le in E; lia|].
    simpl. apply isCircuitOpen_stays_closed, IH; [assumption..|lia].
  - specialize (IH H0 Ho Hn). destruct Hv as [Hne | [Hv | Hv]].
    + unfold isOpenOf, run. rewrite proxyRequest_other by assumption.
      exact IH.
    + apply verdict_short in Hv. unfold run.
      rewrite proxyRequest_open by assumption. exact IH.
    + apply verdict_unresolved in Hv as [Hc [message Hd]]. unfold run.
      erewrite proxyRequest_unresolved by eassumption. simpl.
      apply isCircuitOpen_stays_closed. exact IH.
Qed.

(** C1, counterexample.  Three consecutive failed forwards to item-service
    (the last one recorded at time 3010) open its breaker, yet the next
    request for item-service, arriving at time 33011, is not answered by
    the breaker: the registry is consulted, the request is forwarded and
    the downstream's 200 is relayed. *)
Lemma open_breaker_forwards_after_cooldown :
  failureRun "item-service" 3 ∅ afterThreeFailures /\
  isOpenOf afterThreeFailures "item-service" = true /\
  let next := mkCall itemRegistry (answering 200 VNull) 33011 33020 getItems in
  let out := run afterThreeFailures "item-service" next in
  status (out_response out) = 200 /\
  existsb isDiscover (out_trace out) = true /\
  existsb isAxios (out_trace out) = true.
Proof.
  split; [|vm_compute; auto].
  unfold afterThreeFailures.
  repeat (apply run_failure; [|vm_compute; reflexivity]).
  apply run_start.
Qed.

(** C1, amended.  After three failed forwards to a service with no
    successful forward in between (the third recorded at time
    [c_later c3]) the breaker of that service is open, and every next
    request for it that arrives at most 30000 ms after that failure is
    answered with the synthesized 503 at once: the trace is empty (no
    registry lookup, no network call) and the table is unchanged, whatever
    the registry and the network are. *)
Theorem three_failures_open_breaker name cbs0 cbs2 c3 :
  failureRun name 2 cbs0 cbs2 ->
  verdict cbs2 name c3 = FailedForward ->
  let cbs3 := out_breakers (run cbs2 name c3) in
  isOpenOf cbs3 name = true /\
  lastFailureOf cbs3 name = Some (c_later c3) /\
  forall c4 : Call,
    c_now c4 - c_later c3 <= 30000 ->
    run cbs3 name c4 = mkOutcome cbs3 (mkResponse 503 (circuitOpenBody name)) [].
Proof.
  intros Hrun Hv cbs3. subst cbs3.
  rewrite run_failed_breakers by assumption.
  set (cbs2' := snd (isCircuitOpen cbs2 name (c_now c3))).
  assert (Hn : (2 <= failuresOf cbs2' name)%N).
  { subst cbs2'. rewrite isCircuitOpen_failures.
    rewrite (failureRun_count _ _ _ _ Hrun). lia. }
  destruct (recordFailure_opens cbs2' name (c_later c3) Hn) as [Ho _].
  split; [assumption|]. split; [apply recordFailure_lastFailure|].
  intros c4 Hc4. unfold run. apply proxyRequest_open.
  pose proof (recordFailure_lastFailure cbs2' name (c_later c3)) as Hl.
  unfold isOpenOf in Ho. unfold lastFailureOf in Hl.
  destruct (recordFailure cbs2' name (c_later c3) !! name) as [b|] eqn:Hb;
    [|discriminate].
  rewrite (isCircuitOpen_spec _ _ _ _ Hb Ho), Hl. simpl.
  apply negb_true_iff, Z.ltb_ge. assumption.
Qed.

Lemma three_failures_open_breaker_witness :
  isOpenOf afterThreeFailures "item-service" = true /\
  lastFailureOf afterThreeFailures "item-service" = Some 3010 /\
  forall c4 : Call,
    c_now c4 - 3010 <= 30000 ->
    run afterThreeFailures "item-service" c4
    = mkOutcome afterThreeFailures
        (mkResponse 503 (circuitOpenBody "item-service")) [].
Proof.
  apply (three_failures_open_breaker "item-service" ∅ _ (failingCall 3000)).
  - repeat (apply run_failure; [|vm_compute; reflexivity]). apply run_start.
  - vm_compute. reflexivity.
Defined.

(** ** C2: the trial after the cool-down *)

(** C2, counterexample.  The breaker of item-service is open and exactly
    30000 ms (30 seconds) have elapsed since its last failure; the service
    is registered and would answer 200, but the request is short-circuited:
    503 and no call at all. *)
Lemma open_breaker_at_exactly_30s :
  isOpenOf openedAtZero "item-service" = true /\
  lastFailureOf openedAtZero "item-service" = Some 0 /\
  30000 <= 30000 - 0 /\
  let out := proxyRequest itemRegistry (answering 200 VNull) 30000 30010
               openedAtZero "item-service" getItems in
  out_response out = mkResponse 503 (circuitOpenBody "item-service") /\
  out_trace out = [].
Proof. vm_compute. repeat split; intros; discriminate. Qed.

(** C2, amended.  When the breaker of a service is open and more than
    30000 ms have elapsed since its last failure, the next request is not
    short-circuited; if the service resolves in the registry the request is
    forwarded.  If the forwarded call succeeds the entry is closed
    (0 failures, neither open nor half-open); if it fails the entry is open
    again at once with the failure time [later] as its last failure, so
    that requests up to 30000 ms after [later] are short-circuited. *)
Theorem trial_after_cooldown reg net now later cbs name req t :
  tableInv cbs ->
  isOpenOf cbs name = true ->
  lastFailureOf cbs name = Some t ->
  30000 < now - t ->
  let out := proxyRequest reg net now later cbs name req in
  fst (isCircuitOpen cbs name now) = false /\
  forall service, discover reg name = inl service ->
    let config := proxyConfig service name req in
    out_trace out = [EvDiscover name; EvAxios config] /\
    (forall response, axios net config = Resolved response ->
       closedFor (out_breakers out) name) /\
    (forall error, axios net config = Rejected error ->
       isOpenOf (out_breakers out) name = true /\
       isHalfOpenOf (out_breakers out) name = false /\
       lastFailureOf (out_breakers out) name = Some later /\
       forall now', now' - later <= 30000 ->
         fst (isCircuitOpen (out_breakers out) name now') = true).
Proof.
  intros Hinv Ho Hl Ht out.
  unfold isOpenOf in Ho. unfold lastFailureOf in Hl.
  destruct (cbs !! name) as [b|] eqn:Hb; [|discriminate].
  assert (Hc : fst (isCircuitOpen cbs name now) = false).
  { rewrite (isCircuitOpen_spec _ _ _ _ Hb Ho), Hl. simpl.
    apply negb_false_iff, Z.ltb_lt. assumption. }
  split; [assumption|]. intros service Hd config. subst out config.
  split; [|split].
  - destruct (axios net (proxyConfig service name req)) eqn:Ha.
    + erewrite proxyRequest_resolved by eassumption. reflexivity.
    + erewrite proxyRequest_rejected by eassumption. reflexivity.
  - intros response Ha. erewrite proxyRequest_resolved by eassumption.
    apply resetCircuitBreaker_closed.
  - intros error Ha. erewrite proxyRequest_rejected by eassumption. simpl.
    set (cbs1 := snd (isCircuitOpen cbs name now)).
    assert (Hn : (2 <= failuresOf cbs1 name)%N).
    { subst cbs1. rewrite isCircuitOpen_failures. unfold failuresOf.
      rewrite Hb. specialize (Hinv _ _ Hb). unfold breakerInv in Hinv.
      rewrite Ho in Hinv. specialize (Hinv eq_refl). lia. }
    destruct (recordFailure_opens cbs1 name later Hn) as [Ho' Hh'].
    pose proof (recordFailure_lastFailure cbs1 name later) as Hl'.
    repeat split; try assumption.
    intros now' Hnow'. unfold isOpenOf in Ho'. unfold lastFailureOf in Hl'.
    destruct (recordFailure cbs1 name later !! name) as [b'|] eqn:Hb';
      [|discriminate].
    rewrite (isCircuitOpen_spec _ _ _ _ Hb' Ho'), Hl'. simpl.
    apply negb_true_iff, Z.ltb_ge. assumption.
Qed.

Lemma openedAtZero_inv : tableInv openedAtZero.
Proof.
  apply tableInv_insert; [apply tableInv_empty|].
  intros _. simpl. lia.
Qed.

Lemma trial_after_cooldown_witness :
  let net := answering 200 VNull in
  let out := proxyRequest itemRegistry net 30001 30010 openedAtZero
               "item-service" getItems in
  fst (isCircuitOpen openedAtZero "item-service" 30001) = false /\
  forall service, discover itemRegistry "item-service" = inl service ->
    let config := proxyConfig service "item-service" getItems in
    out_trace out = [EvDiscover "item-service"; EvAxios config] /\
    (forall response, axios net config = Resolved response ->
       closedFor (out_breakers out) "item-service") /\
    (forall error, axios net config = Rejected error ->
       isOpenOf (out_breakers out) "item-service" = true /\
       isHalfOpenOf (out_breakers out) "item-service" = false /\
       lastFailureOf (out_breakers out) "item-service" = Some 30010 /\
       forall now', now' - 30010 <= 30000 ->
         fst (isCircuitOpen (out_breakers out) "item-service" now') = true).
Proof.
  apply (trial_after_cooldown itemRegistry (answering 200 VNull) 30001 30010
           openedAtZero "item-service" getItems 0).
  - apply openedAtZero_inv.
  - vm_compute. reflexivity.
  - vm_compute. reflexivity.
  - lia.
Defined.

(** ** C7 and C8: what a forwarded request leaves behind *)


(** X15.  A forwarded request (breaker not open, service resolved) whose
    call fails in the transport with code ECONNREFUSED or ETIMEDOUT records
    one failure for the target service, stamped with the failure time, and
    is answered with a synthesized 503 whose body carries [success: false],
    the service name and the error code. *)
Theorem network_failure_recorded reg net now later cbs name req
    service code message :
  fst (isCircuitOpen cbs name now) = false ->
  discover reg name = inl service ->
  net (proxyConfig service name req) = Failed (Some code) message ->
  code = "ECONNREFUSED" \/ code = "ETIMEDOUT" ->
  let out := proxyRequest reg net now later cbs name req in
  out_breakers out
  = recordFailure (snd (isCircuitOpen cbs name now)) name later /\
  failuresOf (out_breakers out) name = (failuresOf cbs name + 1)%N /\
  lastFailureOf (out_breakers out) name = Some later /\
  out_response out = mkResponse 503 (unavailableBody name (Some code)) /\
  field "success" (body (out_response out)) = VBool false /\
  field "service" (body (out_response out)) = VStr name /\
  field "error" (body (out_response out)) = VStr code.
Proof.
  intros Hc Hd Hn Hcode out. subst out.
  assert (Ha : axios net (proxyConfig service name req)
               = Rejected (mkAxiosError (Some code) message None)).
  { unfold axios. rewrite Hn. reflexivity. }
  rewrite (proxyRequest_rejected _ _ _ _ _ _ _ _ _ Hc Hd Ha). simpl.
  split; [reflexivity|].
  split; [rewrite recordFailure_failures, isCircuitOpen_failures; reflexivity|].
  split; [apply recordFailure_lastFailure|].
  assert (Hk : isNetworkCode (Some code) = true).
  { destruct Hcode as [-> | ->]; reflexivity. }
  unfold proxyErrorResponse. simpl err_code. rewrite Hk.
  repeat split; reflexivity.
Qed.

Lemma network_failure_recorded_witness :
  let out := proxyRequest itemRegistry refusing 1000 1010 ∅
               "item-service" getItems in
  out_breakers out
  = recordFailure (snd (isCircuitOpen ∅ "item-service" 1000))
      "item-service" 1010 /\
  failuresOf (out_breakers out) "item-service"
  = (failuresOf ∅ "item-service" + 1)%N /\
  lastFailureOf (out_breakers out) "item-service" = Some 1010 /\
  out_response out
  = mkResponse 503 (unavailableBody "item-service" (Some "ECONNREFUSED")) /\
  field "success" (body (out_response out)) = VBool false /\
  field "service" (body (out_response out)) = VStr "item-service" /\
  field "error" (body (out_response out)) = VStr "ECONNREFUSED".
Proof.
  apply (network_failure_recorded itemRegistry refusing 1000 1010 ∅
           "item-service" getItems
           (mkServiceRecord "http://localhost:3003" true) "ECONNREFUSED"
           "connect ECONNREFUSED 127.0.0.1:3003").
  - vm_compute. reflexivity.
  - vm_compute. reflexivity.
  - reflexivity.
  - left. reflexivity.
Defined.

(** C7, failing input.  item-service is registered and accepts the
    forwarded request but does not answer within the 10000 ms that
    [proxyRequest] sets as timeout.  The forward fails and the failure is
    recorded, but the answer is a 500 in the name of "api-gateway" with the
    timeout message as error, not a 503 that names item-service: the catch
    block tests ETIMEDOUT, the gateway's own timeout is ECONNABORTED. *)
Lemma own_timeout_answered_500 :
  let net := exchange sameRequestAt silent 5 in
  let out := proxyRequest itemRegistry net 1000 11000 ∅
               "item-service" getItems in
  verdict ∅ "item-service" (mkCall itemRegistry net 1000 11000 getItems)
  = FailedForward /\
  failuresOf (out_breakers out) "item-service" = 1%N /\
  lastFailureOf (out_breakers out) "item-service" = Some 11000 /\
  out_response out
  = mkResponse 500 (internalErrorBody "timeout of 10000ms exceeded") /\
  status (out_response out) <> 503 /\
  field "service" (body (out_response out)) = VStr "api-gateway" /\
  field "error" (body (out_response out)) = VStr "timeout of 10000ms exceeded".
Proof. vm_compute. repeat split. intros H. discriminate H. Qed.






(** ** C3: a service without a registry entry *)

Lemma discover_absent (reg : gmap string ServiceRecord) name :
  reg !! name = None -> exists message, discover reg name = inr message.
Proof. intros H. unfold discover. rewrite H. eauto. Qed.

(** The array of known services lists exactly the registered names. *)
Lemma serviceKeys_listed (reg : gmap string ServiceRecord) n :
  In (VStr n) (map (fun kv => VStr (fst kv)) (listServices reg))
  <-> is_Some (reg !! n).
Proof.
  unfold listServices. rewrite in_map_iff. split.
  - intros [[k r] [Hk Hin]]. simpl in Hk. injection Hk as ->.
    apply list_elem_of_In, elem_of_map_to_list in Hin. eauto.
  - intros [r Hr]. exists (n, r). split; [reflexivity|].
    apply list_elem_of_In, elem_of_map_to_list. assumption.
Qed.

(** C3, counterexample.  item-service has no registry entry (user-service
    is the only known service) but its breaker is still open from earlier
    failures: the 503 names item-service and no call is made, yet the body
    has no list of known services. *)
Lemma open_breaker_hides_known_services :
  userRegistry !! "item-service" = None /\
  let out := proxyRequest userRegistry refusing 1000 1010 openedAtZero
               "item-service" getItems in
  out_response out = mkResponse 503 (circuitOpenBody "item-service") /\
  field "availableServices" (body (out_response out)) = VUndefined.
Proof. vm_compute. auto. Qed.

(** C3, amended.  For a service name without a registry entry the proxy
    answers 503 with [success: false] and the service name, and makes no
    network call.  Unless the request is short-circuited by an open breaker
    of that name, the body is the "não encontrado" envelope and lists
    exactly the names registered at that moment. *)
Theorem unresolved_service_503 reg net now later cbs name req :
  reg !! name = None ->
  let out := proxyRequest reg net now later cbs name req in
  status (out_response out) = 503 /\
  field "success" (body (out_response out)) = VBool false /\
  field "service" (body (out_response out)) = VStr name /\
  existsb isAxios (out_trace out) = false /\
  (fst (isCircuitOpen cbs name now) = false ->
   out_response out = mkResponse 503 (notFoundBody name (listServices reg)) /\
   exists known,
     field "availableServices" (body (out_response out)) = VArr known /\
     forall n, In (VStr n) known <-> is_Some (reg !! n)).
Proof.
  intros Hreg out. subst out.
  destruct (discover_absent _ _ Hreg) as [message Hd].
  destruct (fst (isCircuitOpen cbs name now)) eqn:Hc.
  - rewrite proxyRequest_open by assumption. simpl.
    do 4 (split; [reflexivity|]). intros H. discriminate H.
  - erewrite proxyRequest_unresolved by eassumption. simpl.
    do 4 (split; [reflexivity|]).
    intros _. split; [reflexivity|].
    eexists. split; [reflexivity|]. apply serviceKeys_listed.
Qed.

Lemma unresolved_service_503_witness :
  let out := proxyRequest userRegistry refusing 1000 1010 ∅
               "item-service" getItems in
  status (out_response out) = 503 /\
  field "success" (body (out_response out)) = VBool false /\
  field "service" (body (out_response out)) = VStr "item-service" /\
  existsb isAxios (out_trace out) = false /\
  (fst (isCircuitOpen ∅ "item-service" 1000) = false ->
   out_response out
   = mkResponse 503 (notFoundBody "item-service" (listServices userRegistry)) /\
   exists known,
     field "availableServices" (body (out_response out)) = VArr known /\
     forall n, In (VStr n) known <-> is_Some (userRegistry !! n)).
Proof.
  apply (unresolved_service_503 userRegistry refusing 1000 1010 ∅
           "item-service" getItems).
  vm_compute. reflexivity.
Defined.

(** ** C9: the error envelope *)







(** ** C10: the global search needs [q] *)

(** The guard of [globalSearch]: a falsy [q] is answered with 400 and
    [success: false], and neither the registry nor any service is called. *)
Lemma search_requires_q reg net req :
  truthy (queryParam req "q") = false ->
  status (fst (globalSearch reg net req)) = 400 /\
  bareEnvelope (body (fst (globalSearch reg net req))) /\
  snd (globalSearch reg net req) = [].
Proof.
  intros Hq. unfold globalSearch. rewrite Hq. simpl.
  unfold bareEnvelope. repeat split; eauto.
Qed.

(** C10, counterexample.  For [GET /api/search?q=&q=] no value of [q] is
    non-empty, but the parsed [q] is an array and therefore truthy: the
    guard lets the request pass, item-service is called and the gateway
    answers 200. *)
Lemma repeated_empty_q_fans_out :
  queryParam searchRepeatedEmptyQ "q" = VArr [VStr ""; VStr ""] /\
  let out := globalSearch itemRegistry (answering 200 (VObj [("data", VArr [])]))
               searchRepeatedEmptyQ in
  status (fst out) = 200 /\
  existsb isDiscover (snd out) = true /\
  existsb isAxios (snd out) = true.
Proof. vm_compute. auto. Qed.

(** C10, amended.  A search request whose parsed [q] is missing or the
    empty string is answered with 400 and [success: false], and neither the
    registry nor any service is called.  The fan-out is performed only when
    the parsed [q] is truthy (a non-empty string, or the array or object
    that a repeated or bracketed parameter is parsed into). *)
Theorem search_needs_truthy_q reg net req :
  (queryParam req "q" = VUndefined \/ queryParam req "q" = VStr "" ->
   status (fst (globalSearch reg net req)) = 400 /\
   bareEnvelope (body (fst (globalSearch reg net req))) /\
   snd (globalSearch reg net req) = []) /\
  (snd (globalSearch reg net req) <> [] ->
   truthy (queryParam req "q") = true).
Proof.
  split.
  - intros Hq. apply search_requires_q. destruct Hq as [-> | ->]; reflexivity.
  - intros Hcall. destruct (truthy (queryParam req "q")) eqn:Hq; [reflexivity|].
    destruct (search_requires_q reg net req Hq) as (_ & _ & Hnil).
    contradiction.
Qed.

Lemma search_needs_truthy_q_witness :
  status (fst (globalSearch itemRegistry (answering 200 VNull) searchWithoutQ)) = 400 /\
  bareEnvelope (body (fst (globalSearch itemRegistry (answering 200 VNull) searchWithoutQ))) /\
  snd (globalSearch itemRegistry (answering 200 VNull) searchWithoutQ) = [].
Proof.
  apply (proj1 (search_needs_truthy_q itemRegistry (answering 200 VNull)
                  searchWithoutQ)).
  right. reflexivity.
Defined.

(** ** C5 and C6: aggregation *)

Lemma dashboardLabel_readable r :
  payloadReadable r = true ->
  exists l, dashboardLabel r = Some l /\ labelFor "data" VNull r l.
Proof.
  destruct r as [value|message]; simpl.
  - intros Hv. destruct value; try discriminate; simpl; eexists;
      (split; [reflexivity|]); split; reflexivity.
  - intros _. eexists. split; [reflexivity|]. repeat split.
Qed.

Lemma searchLabel_readable r :
  payloadReadable r = true ->
  exists l, searchLabel r = Some l /\ labelFor "results" (VArr []) r l.
Proof.
  destruct r as [value|message]; simpl.
  - intros Hv. destruct value; try discriminate; simpl; eexists;
      (split; [reflexivity|]); split; reflexivity.
  - intros _. eexists. split; [reflexivity|]. repeat split.
Qed.

(** C5, counterexample.  A search for "arroz" while item-service is down:
    the aggregate answers 200 and the items label is unavailable, but what
    it carries is the empty list under [results]; neither [results] nor
    [data] is [null]. *)
Lemma failed_search_label_is_empty_list :
  let r := fst (globalSearch itemRegistry refusing (searchArroz [])) in
  let items := path ["data"; "items"] (body r) in
  status r = 200 /\
  field "available" items = VBool false /\
  field "results" items = VArr [] /\
  field "data" items = VUndefined /\
  field "results" items <> VNull /\
  field "data" items <> VNull.
Proof. vm_compute. repeat split; discriminate. Qed.

(** C5, amended.  An authenticated dashboard request is answered 200 with
    the four labels profile, lists, items and categories, and a search
    request with [q] is answered 200 with the label items (and lists when
    a credential is present), however many of the underlying calls were
    rejected, as long as no fulfilled call delivered a [null] or missing
    body.  A label of a rejected call has [available: false] and the
    rejection message as [error]; its payload is [data: null] in the
    dashboard and [results: []] in the search. *)
Theorem aggregate_partial_failures :
  (forall reg net timestamp req,
     let auth := header req "authorization" in
     let user := fst (callService reg net "user-service" "/users/profile" "GET" auth []) in
     let items := fst (callService reg net "item-service" "/items" "GET" None [("limit", VNum 10)]) in
     let lists := fst (callService reg net "list-service" "/lists" "GET" auth [("limit", VNum 5)]) in
     let categories := fst (callService reg net "item-service" "/categories" "GET" None []) in
     let r := fst (getDashboard reg net timestamp req) in
     present auth = true ->
     payloadReadable user = true -> payloadReadable items = true ->
     payloadReadable lists = true -> payloadReadable categories = true ->
     status r = 200 /\
     field "success" (body r) = VBool true /\
     labelFor "data" VNull user (path ["data"; "user_data"; "profile"] (body r)) /\
     labelFor "data" VNull lists (path ["data"; "shopping_data"; "lists"] (body r)) /\
     labelFor "data" VNull items (path ["data"; "shopping_data"; "items"] (body r)) /\
     labelFor "data" VNull categories
       (path ["data"; "shopping_data"; "categories"] (body r))) /\
  (forall reg net req,
     let q := queryParam req "q" in
     let auth := header req "authorization" in
     let items := fst (callService reg net "item-service" "/search" "GET" None [("q", q)]) in
     let lists := fst (callService reg net "list-service" "/search" "GET" auth
                         [("q", q); ("limit", VNum 10)]) in
     let r := fst (globalSearch reg net req) in
     truthy q = true ->
     payloadReadable items = true ->
     (present auth = true -> payloadReadable lists = true) ->
     status r = 200 /\
     field "success" (body r) = VBool true /\
     labelFor "results" (VArr []) items (path ["data"; "items"] (body r)) /\
     (present auth = true ->
      labelFor "results" (VArr []) lists (path ["data"; "lists"] (body r)))).
Proof.
  split.
  - intros reg net timestamp req auth user items lists categories r
      Hauth Hu Hi Hl Hc.
    subst r. unfold getDashboard. fold auth. rewrite Hauth. simpl negb. cbv iota.
    subst user items lists categories.
    destruct (callService reg net "user-service" _ _ auth _) as [user t1].
    destruct (callService reg net "item-service" "/items" _ _ _) as [items t2].
    destruct (callService reg net "list-service" _ _ auth _) as [lists t3].
    destruct (callService reg net "item-service" "/categories" _ _ _)
      as [categories t4].
    simpl fst in *.
    destruct (dashboardLabel_readable _ Hu) as (lu & -> & Lu).
    destruct (dashboardLabel_readable _ Hi) as (li & -> & Li).
    destruct (dashboardLabel_readable _ Hl) as (ll & -> & Ll).
    destruct (dashboardLabel_readable _ Hc) as (lc & -> & Lc).
    unfold path; simpl fold_left.
    split; [reflexivity|]. split; [reflexivity|].
    split; [exact Lu|]. split; [exact Ll|]. split; [exact Li|exact Lc].
  - intros reg net req q auth items lists r Hq Hi Hl.
    subst r. unfold globalSearch. fold q. fold auth.
    rewrite Hq. simpl negb. cbv iota.
    subst items lists.
    destruct (callService reg net "item-service" _ _ _ _) as [items t1].
    simpl fst in *.
    destruct (searchLabel_readable _ Hi) as (li & Ei & Li).
    destruct (present auth) eqn:Hauth.
    + destruct (callService reg net "list-service" _ _ _ _) as [lists t2].
      simpl fst in *.
      destruct (searchLabel_readable _ (Hl eq_refl)) as (ll & El & Ll).
      rewrite Ei, El. unfold path; simpl fold_left.
      split; [reflexivity|]. split; [reflexivity|].
      split; [exact Li|]. intros _. exact Ll.
    + rewrite Ei. unfold path; simpl fold_left.
      split; [reflexivity|]. split; [reflexivity|].
      split; [exact Li|]. intros H. discriminate H.
Qed.

Lemma aggregate_partial_failures_witness :
  let r := fst (globalSearch itemRegistry refusing (searchArroz withToken)) in
  status r = 200 /\
  field "success" (body r) = VBool true /\
  labelFor "results" (VArr [])
    (fst (callService itemRegistry refusing "item-service" "/search" "GET" None
            [("q", VStr "arroz")]))
    (path ["data"; "items"] (body r)) /\
  (present (Some "Bearer t") = true ->
   labelFor "results" (VArr [])
     (fst (callService itemRegistry refusing "list-service" "/search" "GET"
             (Some "Bearer t") [("q", VStr "arroz"); ("limit", VNum 10)]))
     (path ["data"; "lists"] (body r))).
Proof.
  apply (proj2 aggregate_partial_failures itemRegistry refusing
           (searchArroz withToken)).
  - reflexivity.
  - reflexivity.
  - intros _. reflexivity.
Defined.

(** C6, counterexample.  A dashboard request without Authorization header
    fails as a whole: 401, [success: false], no data and no call. *)
Lemma dashboard_without_credential_fails :
  header noAuthorization "authorization" = None /\
  let out := getDashboard itemRegistry (answering 200 VNull)
               "2025-01-01T00:00:00.000Z" noAuthorization in
  status (fst out) = 401 /\
  field "success" (body (fst out)) = VBool false /\
  field "data" (body (fst out)) = VUndefined /\
  snd out = [].
Proof. vm_compute. auto. Qed.

(** C6, amended.  A search request with [q] and without credential issues
    the item-service call only and its response has no lists label at all;
    the missing credential does not make it fail (it is answered 200
    whenever the items payload can be read).  A dashboard request without
    credential is rejected as a whole with 401 and [success: false], and no
    service is called. *)
Theorem unauthenticated_aggregates :
  (forall reg net req,
     let q := queryParam req "q" in
     let items := callService reg net "item-service" "/search" "GET" None [("q", q)] in
     let out := globalSearch reg net req in
     present (header req "authorization") = false ->
     truthy q = true ->
     snd out = snd items /\
     path ["data"; "lists"] (body (fst out)) = VUndefined /\
     (payloadReadable (fst items) = true ->
      status (fst out) = 200 /\ field "success" (body (fst out)) = VBool true)) /\
  (forall reg net timestamp req,
     let out := getDashboard reg net timestamp req in
     present (header req "authorization") = false ->
     status (fst out) = 401 /\
     bareEnvelope (body (fst out)) /\
     field "data" (body (fst out)) = VUndefined /\
     snd out = []).
Proof.
  split.
  - intros reg net req q items out Hauth Hq. subst out.
    unfold globalSearch. fold q.
    rewrite Hq, Hauth. simpl negb. cbv iota. subst items.
    destruct (callService reg net "item-service" _ _ _ _) as [items t1].
    simpl fst. simpl snd.
    destruct (searchLabel items) as [li|] eqn:Ei; simpl.
    + split; [apply app_nil_r|]. split; [reflexivity|]. auto.
    + split; [apply app_nil_r|]. split; [reflexivity|].
      intros Hr. destruct (searchLabel_readable _ Hr) as (l & El & _).
      congruence.
  - intros reg net timestamp req out Hauth. subst out.
    unfold getDashboard. rewrite Hauth. simpl.
    unfold bareEnvelope. repeat split; eauto.
Qed.

Lemma unauthenticated_aggregates_witness :
  let items := callService itemRegistry (answering 200 (VObj [("data", VArr [])]))
                 "item-service" "/search" "GET" None [("q", VStr "arroz")] in
  let out := globalSearch itemRegistry (answering 200 (VObj [("data", VArr [])]))
               (searchArroz []) in
  snd out = snd items /\
  path ["data"; "lists"] (body (fst out)) = VUndefined /\
  (payloadReadable (fst items) = true ->
   status (fst out) = 200 /\ field "success" (body (fst out)) = VBool true).
Proof.
  apply (proj1 unauthenticated_aggregates itemRegistry
           (answering 200 (VObj [("data", VArr [])])) (searchArroz [])).
  - reflexivity.
  - reflexivity.
Defined.

(** ** C4: path rewriting *)

Section Rewriting.

Lemma occurs_startsWith pat s : occurs pat s = false -> startsWith pat s = false.
Proof.
  destruct s; simpl; intros H; apply orb_false_iff in H; apply H.
Qed.

(** Without an occurrence of the pattern [replace] changes nothing. *)
Lemma replace_absent pat rep s : occurs pat s = false -> replace pat rep s = s.
Proof.
  induction s as [|c s IH]; simpl; intros H;
    apply orb_false_iff in H as [Hp Hs]; rewrite Hp.
  - reflexivity.
  - rewrite IH by assumption. reflexivity.
Qed.

Lemma startsWith_empty s : startsWith "" s = true.
Proof. destruct s; reflexivity. Qed.

Lemma ensureLeadingSlash_starts t : startsWith "/" (ensureLeadingSlash t) = true.
Proof.
  unfold ensureLeadingSlash. destruct (startsWith "/" t) eqn:E; [assumption|].
  simpl. apply startsWith_empty.
Qed.

(** What the two fix-ups after the replacement guarantee. *)
Lemma fixups_nonempty root t :
  startsWith "/" root = true -> root <> "/" ->
  let q := orCollectionRoot root (ensureLeadingSlash t) in
  startsWith "/" q = true /\ q <> "" /\ q <> "/".
Proof.
  intros Hroot Hne q. subst q. unfold orCollectionRoot.
  pose proof (ensureLeadingSlash_starts t) as Hs.
  destruct (String.eqb (ensureLeadingSlash t) "/") eqn:E1; simpl.
  - repeat split; [assumption| |assumption].
    intros ->. discriminate Hroot.
  - destruct (String.eqb (ensureLeadingSlash t) "") eqn:E2.
    + repeat split; [assumption| |assumption].
      intros ->. discriminate Hroot.
    + apply String.eqb_neq in E1, E2. repeat split; assumption.
Qed.

(** On a path that already has the shape of a result, the fix-ups are the
    identity. *)
Lemma fixups_stable root q :
  startsWith "/" q = true -> q <> "" -> q <> "/" ->
  orCollectionRoot root (ensureLeadingSlash q) = q.
Proof.
  intros Hs Hne Hr. unfold ensureLeadingSlash. rewrite Hs.
  unfold orCollectionRoot.
  apply String.eqb_neq in Hne, Hr. rewrite Hne, Hr. reflexivity.
Qed.

Lemma proxied_cases serviceName :
  In serviceName proxiedServices ->
  serviceName = "user-service" \/ serviceName = "item-service"
  \/ serviceName = "list-service".
Proof. simpl. intuition. Qed.

Lemma targetPathFor_nonempty serviceName originalPath :
  In serviceName proxiedServices ->
  let q := targetPathFor serviceName originalPath in
  startsWith "/" q = true /\ q <> "" /\ q <> "/".
Proof.
  intros Hin. destruct (proxied_cases _ Hin) as [-> | [-> | ->]];
    unfold targetPathFor; simpl String.eqb; cbv iota;
    apply fixups_nonempty; (reflexivity || discriminate).
Qed.

Lemma targetPathFor_stable serviceName q :
  In serviceName proxiedServices ->
  startsWith "/" q = true -> q <> "" -> q <> "/" ->
  (forall pre, In pre (publicPrefixes serviceName) -> occurs pre q = false) ->
  targetPathFor serviceName q = q.
Proof.
  intros Hin Hs Hne Hr Hocc.
  destruct (proxied_cases _ Hin) as [-> | [-> | ->]];
    unfold targetPathFor; simpl String.eqb; cbv iota;
    simpl in Hocc.
  - rewrite (occurs_startsWith "/api/auth" q) by (apply Hocc; auto).
    rewrite (replace_absent "/api/users") by (apply Hocc; auto).
    apply fixups_stable; assumption.
  - rewrite (occurs_startsWith "/api/categories" q) by (apply Hocc; auto).
    rewrite (occurs_startsWith "/api/search/items" q) by (apply Hocc; auto).
    rewrite (replace_absent "/api/items") by (apply Hocc; auto).
    apply fixups_stable; assumption.
  - rewrite (replace_absent "/api/lists") by (apply Hocc; auto).
    apply fixups_stable; assumption.
Qed.

End Rewriting.

(** C4, counterexample.  Only the first occurrence of the public prefix is
    replaced, so a path under /api/items that contains the prefix again is
    rewritten differently the second time. *)
Lemma rewriting_twice_differs :
  targetPathFor "item-service" "/api/items/api/items" = "/items/api/items" /\
  targetPathFor "item-service" "/items/api/items" = "/items/items" /\
  targetPathFor "item-service"
    (targetPathFor "item-service" "/api/items/api/items")
  <> targetPathFor "item-service" "/api/items/api/items".
Proof. vm_compute. repeat split. discriminate. Qed.

(** C4, amended.  For each of the three proxied services the rewriting
    yields, for every inbound path, one downstream path that starts with
    "/" and is neither empty nor "/"; rewriting the result again leaves it
    unchanged whenever the result contains none of the public prefixes of
    the service (the rewriting replaces the first occurrence only).  Each
    bare public root is rewritten to the root of its collection. *)
Theorem path_rewriting_total :
  (forall serviceName originalPath,
     In serviceName proxiedServices ->
     let q := targetPathFor serviceName originalPath in
     startsWith "/" q = true /\ q <> "" /\ q <> "/" /\
     ((forall pre, In pre (publicPrefixes serviceName) -> occurs pre q = false) ->
      targetPathFor serviceName q = q)) /\
  targetPathFor "user-service" "/api/auth" = "/auth" /\
  targetPathFor "user-service" "/api/users" = "/users" /\
  targetPathFor "item-service" "/api/items" = "/items" /\
  targetPathFor "item-service" "/api/categories" = "/categories" /\
  targetPathFor "item-service" "/api/search/items" = "/search" /\
  targetPathFor "list-service" "/api/lists" = "/lists".
Proof.
  split; [|repeat split; reflexivity].
  intros serviceName originalPath Hin q.
  destruct (targetPathFor_nonempty serviceName originalPath Hin)
    as (Hs & Hne & Hr).
  repeat split; try assumption.
  intros Hocc. apply targetPathFor_stable; assumption.
Qed.

Lemma path_rewriting_total_witness :
  let q := targetPathFor "item-service" "/api/items/42" in
  startsWith "/" q = true /\ q <> "" /\ q <> "/" /\
  ((forall pre, In pre (publicPrefixes "item-service") -> occurs pre q = false) ->
   targetPathFor "item-service" q = q).
Proof.
  apply (proj1 path_rewriting_total "item-service" "/api/items/42").
  simpl. auto.
Defined.

(** * Further properties of the gateway *)

(** ** The breaker table across requests *)

Lemma fewer_failures_stay_closed_witness :
  isOpenOf
    (out_breakers (run (out_breakers (run ∅ "item-service" (failingCall 1000)))
                     "item-service" (failingCall 2000)))
    "item-service" = false.
Proof.
  apply (fewer_failures_stay_closed "item-service" 2 ∅).
  - repeat (apply run_failure; [|vm_compute; reflexivity]). apply run_start.
  - reflexivity.
  - reflexivity.
  - lia.
Defined.

(** X1.  A proxied request for one service leaves the breaker entry of
    every other service exactly as it was. *)
Theorem proxy_isolates_services reg net now later
    (cbs : gmap string Breaker) name other req :
  name <> other ->
  out_breakers (proxyRequest reg net now later cbs name req) !! other
  = cbs !! other.
Proof. apply proxyRequest_other. Qed.

Lemma proxy_isolates_services_witness :
  out_breakers (proxyRequest userRegistry refusing 1000 1010 openedAtZero
                  "user-service" getItems) !! "item-service"
  = openedAtZero !! "item-service".
Proof.
  apply (proxy_isolates_services userRegistry refusing 1000 1010 openedAtZero
           "user-service" "item-service" getItems).
  apply String.eqb_neq. reflexivity.
Defined.

Lemma entryInv_insert (cbs : gmap string Breaker) name b :
  (forall n b', cbs !! n = Some b' -> entryInv b') -> entryInv b ->
  forall n b', <[name := b]> cbs !! n = Some b' -> entryInv b'.
Proof.
  intros Hinv Hb n b' H.
  destruct (decide (name = n)) as [->|Hne].
  - rewrite lookup_insert_eq in H. injection H as <-. exact Hb.
  - rewrite lookup_insert_ne in H by assumption. eauto.
Qed.

Lemma isCircuitOpen_entries (cbs : gmap string Breaker) name now :
  (forall n b, cbs !! n = Some b -> entryInv b) ->
  forall n b, snd (isCircuitOpen cbs name now) !! n = Some b -> entryInv b.
Proof.
  intros Hinv. unfold isCircuitOpen.
  destruct (cbs !! name) as [b|] eqn:Hb; simpl; [|assumption].
  destruct (isOpen b && _) eqn:E; simpl; [|assumption].
  apply entryInv_insert; [assumption|].
  apply andb_true_iff in E as [Ho _].
  destruct (Hinv _ _ Hb) as (Hl & Hx & Hn).
  unfold entryInv. simpl. split; [assumption|]. split; [discriminate|].
  rewrite <- Hn, Ho. reflexivity.
Qed.

Lemma recordFailure_entries (cbs : gmap string Breaker) name now :
  (forall n b, cbs !! n = Some b -> entryInv b) ->
  forall n b, recordFailure cbs name now !! n = Some b -> entryInv b.
Proof.
  intros Hinv. unfold recordFailure.
  apply entryInv_insert; [assumption|].
  assert (Hold : isOpen (default (mkBreaker 0 false false None) (cbs !! name))
                 || isHalfOpen (default (mkBreaker 0 false false None) (cbs !! name))
                 = true ->
                 (3 <= failures (default (mkBreaker 0 false false None)
                                   (cbs !! name)))%N).
  { destruct (cbs !! name) as [b|] eqn:Hb; simpl.
    - apply (Hinv _ _ Hb).
    - discriminate. }
  assert (Hexcl : isOpen (default (mkBreaker 0 false false None) (cbs !! name))
                  = true ->
                  isHalfOpen (default (mkBreaker 0 false false None) (cbs !! name))
                  = false).
  { destruct (cbs !! name) as [b|] eqn:Hb; simpl.
    - apply (Hinv _ _ Hb).
    - discriminate. }
  set (old := default (mkBreaker 0 false false None) (cbs !! name)) in *.
  destruct (3 <=? failures old + 1)%N eqn:E; unfold entryInv; simpl.
  - apply N.leb_le in E. split; [eauto|]. split; [reflexivity|].
    split; [intros _; exact E|reflexivity].
  - apply N.leb_gt in E. split; [eauto|]. split; [assumption|].
    split; [intros H; specialize (Hold H); lia|lia].
Qed.

Lemma resetCircuitBreaker_entries (cbs : gmap string Breaker) name :
  (forall n b, cbs !! n = Some b -> entryInv b) ->
  forall n b, resetCircuitBreaker cbs name !! n = Some b -> entryInv b.
Proof.
  intros Hinv. unfold resetCircuitBreaker.
  destruct (cbs !! name) as [b|] eqn:Hb; [|assumption].
  apply entryInv_insert; [assumption|].
  destruct (Hinv _ _ Hb) as (Hl & _).
  unfold entryInv. simpl. split; [assumption|]. split; [reflexivity|].
  split; [discriminate|lia].
Qed.

Lemma runAll_entries calls : forall cbs : gmap string Breaker,
  (forall n b, cbs !! n = Some b -> entryInv b) ->
  forall n b, runAll cbs calls !! n = Some b -> entryInv b.
Proof.
  induction calls as [|[name c] rest IH]; intros cbs Hinv; simpl.
  - assumption.
  - apply IH. unfold run.
    destruct (proxyRequest_breakers (c_reg c) (c_net c) (c_now c) (c_later c)
                cbs name (c_req c)) as [-> | [-> | ->]].
    + apply isCircuitOpen_entries; assumption.
    + apply resetCircuitBreaker_entries, isCircuitOpen_entries; assumption.
    + apply recordFailure_entries, isCircuitOpen_entries; assumption.
Qed.

(** X2.  Whatever requests the gateway has proxied since it started with an
    empty table, every stored breaker entry carries a failure time, is not
    open and half-open at once, and is open or half-open exactly when its
    failure count is at least 3 (so it is closed exactly below 3). *)
Theorem stored_entries_well_formed calls name b :
  runAll ∅ calls !! name = Some b -> entryInv b.
Proof.
  apply runAll_entries. intros n b' H. rewrite lookup_empty in H. discriminate.
Qed.

Lemma stored_entries_well_formed_witness :
  entryInv (mkBreaker 3 true false (Some 3010)).
Proof.
  apply (stored_entries_well_formed
           [("item-service", failingCall 1000);
            ("item-service", failingCall 2000);
            ("item-service", failingCall 3000)] "item-service").
  vm_compute. reflexivity.
Defined.

(** X3.  The failure counter of a service counts exactly its failed
    forwards since the last successful one: requests to other services,
    short-circuited requests and requests that find no registry entry in
    between neither add to it nor reset it. *)
Theorem failure_counter_counts_failed_forwards name n
    (cbs cbs' : gmap string Breaker) :
  failureRun name n cbs cbs' ->
  failuresOf cbs' name = (failuresOf cbs name + N.of_nat n)%N.
Proof. apply failureRun_count. Qed.

Lemma failure_counter_counts_failed_forwards_witness :
  failuresOf afterThreeFailures "item-service"
  = (failuresOf ∅ "item-service" + N.of_nat 3)%N.
Proof.
  apply (failure_counter_counts_failed_forwards "item-service" 3 ∅).
  unfold afterThreeFailures.
  repeat (apply run_failure; [|vm_compute; reflexivity]). apply run_start.
Defined.

(** X5.  A request for a service without registry entry is never counted as
    a failure: the failure count and the last failure time of every service
    are what they were before. *)
Theorem unresolved_request_not_counted reg net now later
    (cbs : gmap string Breaker) name req other :
  reg !! name = None ->
  let out := proxyRequest reg net now later cbs name req in
  failuresOf (out_breakers out) other = failuresOf cbs other /\
  lastFailureOf (out_breakers out) other = lastFailureOf cbs other.
Proof.
  intros Hreg out. subst out.
  destruct (discover_absent _ _ Hreg) as [message Hd].
  destruct (fst (isCircuitOpen cbs name now)) eqn:Hc.
  - rewrite proxyRequest_open by assumption. split; reflexivity.
  - erewrite proxyRequest_unresolved by eassumption. simpl.
    split; [apply isCircuitOpen_failures|apply isCircuitOpen_lastFailure].
Qed.

Lemma unresolved_request_not_counted_witness :
  let out := proxyRequest userRegistry refusing 40000 40010 openedAtZero
               "item-service" getItems in
  failuresOf (out_breakers out) "item-service"
  = failuresOf openedAtZero "item-service" /\
  lastFailureOf (out_breakers out) "item-service"
  = lastFailureOf openedAtZero "item-service".
Proof.
  apply (unresolved_request_not_counted userRegistry refusing 40000 40010
           openedAtZero "item-service" getItems "item-service").
  vm_compute. reflexivity.
Defined.

(** X13.  Once a request has found the cool-down of an open breaker elapsed
    (more than 30000 ms since the last failure), the entry is half-open with
    its failure count and failure time unchanged, and from then on the
    breaker check lets every request through, at whatever time it arrives,
    without changing the table again. *)
Theorem half_open_admits_every_request (cbs : gmap string Breaker) name now t :
  isOpenOf cbs name = true ->
  lastFailureOf cbs name = Some t ->
  30000 < now - t ->
  let cbs1 := snd (isCircuitOpen cbs name now) in
  isOpenOf cbs1 name = false /\
  isHalfOpenOf cbs1 name = true /\
  failuresOf cbs1 name = failuresOf cbs name /\
  lastFailureOf cbs1 name = Some t /\
  forall now', isCircuitOpen cbs1 name now' = (false, cbs1).
Proof.
  intros Ho Hl Ht cbs1. subst cbs1.
  unfold isOpenOf in Ho. unfold lastFailureOf in Hl.
  destruct (cbs !! name) as [b|] eqn:Hb; [|discriminate].
  assert (E : isOpen b && (30000 <? now - toNumber (lastFailure b)) = true).
  { rewrite Ho, Hl. simpl. apply Z.ltb_lt. assumption. }
  assert (Hs : snd (isCircuitOpen cbs name now)
               = <[name := mkBreaker (failures b) false true (lastFailure b)]> cbs).
  { unfold isCircuitOpen. rewrite Hb, E. reflexivity. }
  rewrite Hs. unfold isOpenOf, isHalfOpenOf, failuresOf, lastFailureOf.
  rewrite lookup_insert_eq, Hb. simpl.
  repeat split; try assumption.
  intros now'. unfold isCircuitOpen. rewrite lookup_insert_eq. reflexivity.
Qed.

Lemma half_open_admits_every_request_witness :
  let cbs1 := snd (isCircuitOpen openedAtZero "item-service" 30001) in
  isOpenOf cbs1 "item-service" = false /\
  isHalfOpenOf cbs1 "item-service" = true /\
  failuresOf cbs1 "item-service" = failuresOf openedAtZero "item-service" /\
  lastFailureOf cbs1 "item-service" = Some 0 /\
  forall now', isCircuitOpen cbs1 "item-service" now' = (false, cbs1).
Proof.
  apply (half_open_admits_every_request openedAtZero "item-service" 30001 0).
  - reflexivity.
  - reflexivity.
  - lia.
Defined.

(** ** What the proxy sends and answers *)

(** X6.  When a forwarded call fails in the transport with any other code
    than ECONNREFUSED and ETIMEDOUT (or with none), the failure is recorded
    for the target service all the same, but the answer is a 500 in the name
    of "api-gateway" that carries the error's message. *)
Theorem other_transport_failure_is_500 reg net now later
    (cbs : gmap string Breaker) name req service code message :
  fst (isCircuitOpen cbs name now) = false ->
  discover reg name = inl service ->
  net (proxyConfig service name req) = Failed code message ->
  isNetworkCode code = false ->
  let out := proxyRequest reg net now later cbs name req in
  out_response out = mkResponse 500 (internalErrorBody message) /\
  envelope "api-gateway" (body (out_response out)) /\
  field "error" (body (out_response out)) = VStr message /\
  out_breakers out
  = recordFailure (snd (isCircuitOpen cbs name now)) name later /\
  failuresOf (out_breakers out) name = (failuresOf cbs name + 1)%N.
Proof.
  intros Hc Hd Hn Hk out. subst out.
  assert (Ha : axios net (proxyConfig service name req)
               = Rejected (mkAxiosError code message None)).
  { unfold axios. rewrite Hn. reflexivity. }
  rewrite (proxyRequest_rejected _ _ _ _ _ _ _ _ _ Hc Hd Ha). simpl.
  unfold proxyErrorResponse. simpl. rewrite Hk. simpl.
  split; [reflexivity|]. split; [unfold envelope; simpl; eauto|].
  split; [reflexivity|]. split; [reflexivity|].
  rewrite recordFailure_failures, isCircuitOpen_failures. reflexivity.
Qed.

Lemma other_transport_failure_is_500_witness :
  let out := proxyRequest itemRegistry timingOut 1000 11000 ∅
               "item-service" getItems in
  out_response out
  = mkResponse 500 (internalErrorBody "timeout of 10000ms exceeded") /\
  envelope "api-gateway" (body (out_response out)) /\
  field "error" (body (out_response out)) = VStr "timeout of 10000ms exceeded" /\
  out_breakers out
  = recordFailure (snd (isCircuitOpen ∅ "item-service" 1000))
      "item-service" 11000 /\
  failuresOf (out_breakers out) "item-service"
  = (failuresOf ∅ "item-service" + 1)%N.
Proof.
  apply (other_transport_failure_is_500 itemRegistry timingOut 1000 11000 ∅
           "item-service" getItems
           (mkServiceRecord "http://localhost:3003" true)
           (Some "ECONNABORTED") "timeout of 10000ms exceeded").
  - vm_compute. reflexivity.
  - vm_compute. reflexivity.
  - reflexivity.
  - reflexivity.
Defined.

(** X7.  A proxied request does one of three things and nothing else: it is
    short-circuited without any lookup or call; or it looks the service up,
    finds no entry and lists the registry; or it looks the service up and
    makes exactly one network call, to the registered record of that
    service (never a second attempt, never a call without a lookup). *)
Theorem proxy_trace_shapes reg net now later (cbs : gmap string Breaker)
    name req :
  let trace := out_trace (proxyRequest reg net now later cbs name req) in
  (fst (isCircuitOpen cbs name now) = true /\ trace = []) \/
  (fst (isCircuitOpen cbs name now) = false /\ reg !! name = None /\
   trace = [EvDiscover name; EvListServices]) \/
  (fst (isCircuitOpen cbs name now) = false /\
   exists service, reg !! name = Some service /\
     trace = [EvDiscover name; EvAxios (proxyConfig service name req)]).
Proof.
  unfold proxyRequest, discover.
  destruct (isCircuitOpen cbs name now) as [o cbs1]. simpl.
  destruct o; [left; auto|].
  destruct (reg !! name) as [service|] eqn:Hr.
  - right; right. split; [reflexivity|]. exists service. split; [reflexivity|].
    destruct (axios net _); reflexivity.
  - right; left. auto.
Qed.

Lemma proxy_trace_shapes_witness :
  let trace := out_trace (proxyRequest itemRegistry refusing 1000 1010 ∅
                            "item-service" getItems) in
  (fst (isCircuitOpen ∅ "item-service" 1000) = true /\ trace = []) \/
  (fst (isCircuitOpen ∅ "item-service" 1000) = false /\
   itemRegistry !! "item-service" = None /\
   trace = [EvDiscover "item-service"; EvListServices]) \/
  (fst (isCircuitOpen ∅ "item-service" 1000) = false /\
   exists service, itemRegistry !! "item-service" = Some service /\
     trace = [EvDiscover "item-service";
              EvAxios (proxyConfig service "item-service" getItems)]).
Proof.
  exact (proxy_trace_shapes itemRegistry refusing 1000 1010 ∅
           "item-service" getItems).
Defined.

Lemma proxyHeaders_spec req k v :
  In (k, v) (proxyHeaders req)
  <-> In (k, v) (req_headers req) /\ k <> "host" /\ k <> "content-length".
Proof.
  unfold proxyHeaders. rewrite <- !list_elem_of_In, list_elem_of_filter. simpl.
  rewrite andb_True, !negb_True, !Is_true_true, !String.eqb_eq. tauto.
Qed.

Lemma includes_methods m :
  includes ["POST"; "PUT"; "PATCH"] m = true
  <-> m = "POST" \/ m = "PUT" \/ m = "PATCH".
Proof.
  unfold includes. simpl. rewrite !orb_true_iff, !String.eqb_eq.
  intuition discriminate.
Qed.

(** X8.  The configuration of the one network call of a proxied request,
    in full.  Its url is the registered url of the service followed by the
    rewritten original url, query string included; on top of that the
    parsed query is attached as [params] whenever it is not empty, so a
    query string reaches the downstream twice.  The call has the inbound
    method, a 10000 ms timeout, IPv4, and accepts every status below 500.
    It carries every inbound header except host and content-length (so a
    credential passes through untouched), and it carries the inbound body
    exactly when the method is POST, PUT or PATCH. *)
Theorem forwarded_request_content reg net now later
    (cbs : gmap string Breaker) name req cfg :
  In (EvAxios cfg) (out_trace (proxyRequest reg net now later cbs name req)) ->
  (exists service, reg !! name = Some service /\
     cfg_url cfg = url service +:+ targetPathFor name (originalUrl req)) /\
  cfg_method cfg = req_method req /\
  cfg_timeout cfg = 10000 /\
  (exists hs, cfg_headers cfg = Some hs /\
     forall k v, In (k, v) hs
       <-> In (k, v) (req_headers req) /\ k <> "host" /\ k <> "content-length") /\
  (req_method req = "POST" \/ req_method req = "PUT" \/ req_method req = "PATCH" ->
   cfg_data cfg = Some (req_body req)) /\
  (~ (req_method req = "POST" \/ req_method req = "PUT" \/ req_method req = "PATCH") ->
   cfg_data cfg = None) /\
  (req_query req = [] -> cfg_params cfg = None) /\
  (req_query req <> [] -> cfg_params cfg = Some (req_query req)) /\
  cfg_family cfg = Some 4 /\
  (forall st, cfg_validateStatus cfg st = (st <? 500)).
Proof.
  intros Hin.
  destruct (proxy_trace_shapes reg net now later cbs name req)
    as [[_ Ht] | [(_ & _ & Ht) | (_ & service & Hr & Ht)]];
    rewrite Ht in Hin; simpl in Hin.
  - contradiction.
  - destruct Hin as [H | [H | []]]; discriminate H.
  - destruct Hin as [H | [H | []]]; [discriminate H|].
    injection H as <-. unfold proxyConfig.
    cbn [cfg_url cfg_method cfg_timeout cfg_headers cfg_data cfg_params
         cfg_family cfg_validateStatus].
    split; [eauto|]. split; [reflexivity|]. split; [reflexivity|].
    split; [eexists; split; [reflexivity|]; intros; apply proxyHeaders_spec|].
    split; [|split; [|split; [|split; [|split; [reflexivity|reflexivity]]]]].
    + intros Hm. apply includes_methods in Hm. rewrite Hm. reflexivity.
    + intros Hm. destruct (includes _ (req_method req)) eqn:E; [|reflexivity].
      apply includes_methods in E. contradiction.
    + intros ->. reflexivity.
    + intros Hq. destruct (req_query req); [contradiction|reflexivity].
Qed.

Lemma forwarded_request_content_witness :
  let req := getItemsFields in
  let cfg := proxyConfig (mkServiceRecord "http://localhost:3003" true)
               "item-service" req in
  (exists service, itemRegistry !! "item-service" = Some service /\
     cfg_url cfg = url service +:+ targetPathFor "item-service" (originalUrl req)) /\
  cfg_method cfg = req_method req /\
  cfg_timeout cfg = 10000 /\
  (exists hs, cfg_headers cfg = Some hs /\
     forall k v, In (k, v) hs
       <-> In (k, v) (req_headers req) /\ k <> "host" /\ k <> "content-length") /\
  (req_method req = "POST" \/ req_method req = "PUT" \/ req_method req = "PATCH" ->
   cfg_data cfg = Some (req_body req)) /\
  (~ (req_method req = "POST" \/ req_method req = "PUT" \/ req_method req = "PATCH") ->
   cfg_data cfg = None) /\
  (req_query req = [] -> cfg_params cfg = None) /\
  (req_query req <> [] -> cfg_params cfg = Some (req_query req)) /\
  cfg_family cfg = Some 4 /\
  (forall st, cfg_validateStatus cfg st = (st <? 500)).
Proof.
  apply (forwarded_request_content itemRegistry refusing 1000 1010 ∅
           "item-service" getItemsFields).
  right. left. reflexivity.
Defined.

(** The configuration of [GET /api/items?fields=name]: the query string is
    in the url and once more in [params]. *)
Example forwarded_query_twice :
  let cfg := proxyConfig (mkServiceRecord "http://localhost:3003" true)
               "item-service" getItemsFields in
  cfg_url cfg = "http://localhost:3003/items?fields=name" /\
  cfg_params cfg = Some [("fields", VStr "name")].
Proof. split; reflexivity. Qed.

(** ** Rewriting below a public prefix *)

Lemma startsWith_app pat rest : startsWith pat (pat +:+ rest) = true.
Proof.
  induction pat as [|c pat IH]; simpl.
  - apply startsWith_empty.
  - destruct (ascii_dec c c) as [_|Hne]; [exact IH|contradiction].
Qed.

Lemma dropChars_app pat rest : dropChars (String.length pat) (pat +:+ rest) = rest.
Proof. induction pat as [|c pat IH]; simpl; [reflexivity|exact IH]. Qed.

Lemma replace_unfold pat rep s :
  replace pat rep s
  = if startsWith pat s then rep +:+ dropChars (String.length pat) s
    else match s with
         | EmptyString => EmptyString
         | String c s' => String c (replace pat rep s')
         end.
Proof. destruct s; reflexivity. Qed.

(** A path that begins with the pattern has exactly that beginning replaced. *)
Lemma replace_prefix pat rep rest : replace pat rep (pat +:+ rest) = rep +:+ rest.
Proof.
  rewrite replace_unfold, startsWith_app, dropChars_app. reflexivity.
Qed.

(** X9.  Below each public prefix mounted by the proxy routes, the rewriting
    replaces the prefix by the root of the collection and keeps whatever
    follows it (the rest of the path and the query string) character for
    character. *)
Theorem public_prefix_rewritten rest :
  targetPathFor "user-service" ("/api/auth" +:+ rest) = "/auth" +:+ rest /\
  targetPathFor "user-service" ("/api/users" +:+ rest) = "/users" +:+ rest /\
  targetPathFor "item-service" ("/api/items" +:+ rest) = "/items" +:+ rest /\
  targetPathFor "item-service" ("/api/categories" +:+ rest)
  = "/categories" +:+ rest /\
  targetPathFor "item-service" ("/api/search/items" +:+ rest)
  = "/search" +:+ rest /\
  targetPathFor "list-service" ("/api/lists" +:+ rest) = "/lists" +:+ rest.
Proof.
  unfold targetPathFor. cbn [String.eqb Ascii.eqb Bool.eqb].
  rewrite !startsWith_app.
  change (startsWith "/api/auth" ("/api/users" +:+ rest)) with false.
  change (startsWith "/api/categories" ("/api/items" +:+ rest)) with false.
  change (startsWith "/api/search/items" ("/api/items" +:+ rest)) with false.
  change (startsWith "/api/categories" ("/api/search/items" +:+ rest)) with false.
  cbv iota. rewrite !replace_prefix.
  repeat split; reflexivity.
Qed.

Lemma public_prefix_rewritten_witness :
  targetPathFor "item-service" ("/api/items" +:+ "/42?fields=name")
  = "/items" +:+ "/42?fields=name".
Proof.
  exact (proj1 (proj2 (proj2 (public_prefix_rewritten "/42?fields=name")))).
Defined.

(** ** What the aggregates return *)

Lemma dashboardLabel_unreadable r :
  payloadReadable r = false -> dashboardLabel r = None.
Proof.
  destruct r as [value|message]; simpl; [|discriminate].
  destruct value; simpl; intros H; (reflexivity || discriminate H).
Qed.

Lemma searchLabel_unreadable r :
  payloadReadable r = false -> searchLabel r = None.
Proof.
  destruct r as [value|message]; simpl; [|discriminate].
  destruct value; simpl; intros H; (reflexivity || discriminate H).
Qed.

Lemma dashboardLabel_data value l :
  dashboardLabel (Fulfilled value) = Some l ->
  field "available" l = VBool true /\ field "data" l = field "data" value.
Proof.
  destruct value; simpl; intros H; try discriminate H;
    injection H as <-; split; reflexivity.
Qed.

Lemma searchLabel_results value l :
  searchLabel (Fulfilled value) = Some l ->
  field "available" l = VBool true /\
  field "results" l
  = (if truthy (path ["data"; "results"] value)
     then path ["data"; "results"] value else field "data" value).
Proof.
  destruct value; simpl; intros H; try discriminate H;
    injection H as <-; split; reflexivity.
Qed.

(** X10.  A call that is fulfilled with a [null] or missing body brings the
    whole aggregate down: the dashboard and the search answer 500 with
    [success: false] and no data, whatever the other calls delivered. *)
Theorem null_payload_fails_aggregate :
  (forall reg net timestamp req,
     let auth := header req "authorization" in
     let user := fst (callService reg net "user-service" "/users/profile" "GET" auth []) in
     let items := fst (callService reg net "item-service" "/items" "GET" None [("limit", VNum 10)]) in
     let lists := fst (callService reg net "list-service" "/lists" "GET" auth [("limit", VNum 5)]) in
     let categories := fst (callService reg net "item-service" "/categories" "GET" None []) in
     let r := fst (getDashboard reg net timestamp req) in
     present auth = true ->
     payloadReadable user = false \/ payloadReadable items = false \/
     payloadReadable lists = false \/ payloadReadable categories = false ->
     status r = 500 /\ bareEnvelope (body r) /\ field "data" (body r) = VUndefined) /\
  (forall reg net req,
     let q := queryParam req "q" in
     let auth := header req "authorization" in
     let items := fst (callService reg net "item-service" "/search" "GET" None [("q", q)]) in
     let lists := fst (callService reg net "list-service" "/search" "GET" auth
                         [("q", q); ("limit", VNum 10)]) in
     let r := fst (globalSearch reg net req) in
     truthy q = true ->
     payloadReadable items = false \/
     (present auth = true /\ payloadReadable lists = false) ->
     status r = 500 /\ bareEnvelope (body r) /\ field "data" (body r) = VUndefined).
Proof.
  split.
  - intros reg net timestamp req auth user items lists categories r Hauth Hbad.
    subst r. unfold getDashboard. fold auth. rewrite Hauth. simpl negb. cbv iota.
    subst user items lists categories.
    destruct (callService reg net "user-service" _ _ auth _) as [user t1].
    destruct (callService reg net "item-service" "/items" _ _ _) as [items t2].
    destruct (callService reg net "list-service" _ _ auth _) as [lists t3].
    destruct (callService reg net "item-service" "/categories" _ _ _)
      as [categories t4].
    simpl fst in *.
    assert (Hnone : (profile ← dashboardLabel user;
                     lists0 ← dashboardLabel lists;
                     items0 ← dashboardLabel items;
                     categories0 ← dashboardLabel categories;
                     Some (profile, lists0, items0, categories0)) = None).
    { destruct Hbad as [H | [H | [H | H]]];
        apply dashboardLabel_unreadable in H; rewrite H;
        destruct (dashboardLabel user); simpl; try reflexivity;
        destruct (dashboardLabel lists); simpl; try reflexivity;
        destruct (dashboardLabel items); simpl; reflexivity. }
    destruct (dashboardLabel user); simpl in *;
      [destruct (dashboardLabel lists); simpl in *;
        [destruct (dashboardLabel items); simpl in *;
          [destruct (dashboardLabel categories); simpl in *;
            [discriminate Hnone|]|]|]|];
      unfold bareEnvelope; simpl; repeat split; eauto.
  - intros reg net req q auth items lists r Hq Hbad.
    subst r. unfold globalSearch. fold q. fold auth.
    rewrite Hq. simpl negb. cbv iota. subst items lists.
    destruct (callService reg net "item-service" _ _ _ _) as [items t1].
    simpl fst in *.
    destruct Hbad as [H | [Hauth H]].
    + apply searchLabel_unreadable in H.
      destruct (present auth);
        [destruct (callService reg net "list-service" _ _ _ _) as [lists t2]|];
        rewrite H; simpl; unfold bareEnvelope; simpl; repeat split; eauto.
    + rewrite Hauth.
      destruct (callService reg net "list-service" _ _ _ _) as [lists t2].
      simpl fst in *. apply searchLabel_unreadable in H. rewrite H.
      destruct (searchLabel items); simpl;
        unfold bareEnvelope; simpl; repeat split; eauto.
Qed.

Lemma null_payload_fails_aggregate_witness :
  let r := fst (globalSearch itemRegistry (answering 200 VNull) (searchArroz [])) in
  status r = 500 /\ bareEnvelope (body r) /\ field "data" (body r) = VUndefined.
Proof.
  apply (proj2 null_payload_fails_aggregate itemRegistry (answering 200 VNull)
           (searchArroz [])).
  - reflexivity.
  - left. reflexivity.
Defined.

Lemma discovered_app t1 t2 :
  discovered (t1 ++ t2)%list = (discovered t1 ++ discovered t2)%list.
Proof.
  induction t1 as [|e t1 IH]; simpl; [reflexivity|].
  destruct e; simpl; rewrite IH; reflexivity.
Qed.

Lemma callService_discovered reg net name pth method auth params :
  discovered (snd (callService reg net name pth method auth params)) = [name].
Proof. unfold callService. destruct (discover reg name); reflexivity. Qed.

(** X11.  A call made for an aggregate goes to the registered url of the
    service followed by the given path, with a 5000 ms timeout and never
    with a body; its only header is Authorization, present exactly when a
    non-empty credential was passed; query parameters are attached only to
    a GET with a non-empty parameter list. *)
Theorem aggregate_call_content reg net name pth method auth params cfg :
  In (EvAxios cfg) (snd (callService reg net name pth method auth params)) ->
  (exists service, reg !! name = Some service /\
     cfg_url cfg = url service +:+ pth) /\
  cfg_method cfg = method /\
  cfg_timeout cfg = 5000 /\
  cfg_data cfg = None /\
  (forall h, auth = Some h -> h <> "" ->
     cfg_headers cfg = Some [("Authorization", h)]) /\
  (present auth = false -> cfg_headers cfg = None) /\
  (cfg_params cfg = Some params <-> method = "GET" /\ params <> []) /\
  (cfg_params cfg = None \/ cfg_params cfg = Some params).
Proof.
  unfold callService, discover.
  destruct (reg !! name) as [service|] eqn:Hr; simpl.
  2:{ intros [H | []]. discriminate H. }
  intros [H | [H | []]]; [discriminate H|]. injection H as <-.
  cbn [cfg_url cfg_method cfg_timeout cfg_data cfg_headers cfg_params].
  split; [eauto|]. do 3 (split; [reflexivity|]).
  split; [|split; [|split]].
  - intros h -> Hh. simpl. apply String.eqb_neq in Hh. rewrite Hh. reflexivity.
  - destruct auth as [h|]; simpl; [|reflexivity]. intros ->. reflexivity.
  - destruct (String.eqb method "GET") eqn:E.
    + apply String.eqb_eq in E. destruct params as [|p ps].
      * split; [discriminate|]. intros [_ H]. exfalso. apply H. reflexivity.
      * split; [|reflexivity]. intros _. split; [assumption|discriminate].
    + apply String.eqb_neq in E. split; [discriminate|]. intros [? _].
      contradiction.
  - destruct (String.eqb method "GET"); [|auto]. destruct params; auto.
Qed.

Lemma aggregate_call_content_witness :
  let cfg :=
    {| cfg_method := "GET";
       cfg_url := "http://localhost:3003/search";
       cfg_headers := None;
       cfg_timeout := 5000;
       cfg_family := None;
       cfg_validateStatus := defaultValidateStatus;
       cfg_data := None;
       cfg_params := Some [("q", VStr "arroz")] |} in
  (exists service, itemRegistry !! "item-service" = Some service /\
     cfg_url cfg = url service +:+ "/search") /\
  cfg_method cfg = "GET" /\
  cfg_timeout cfg = 5000 /\
  cfg_data cfg = None /\
  (forall h, None = Some h -> h <> "" ->
     cfg_headers cfg = Some [("Authorization", h)]) /\
  (present None = false -> cfg_headers cfg = None) /\
  (cfg_params cfg = Some [("q", VStr "arroz")]
   <-> "GET" = "GET" /\ [("q", VStr "arroz")] <> []) /\
  (cfg_params cfg = None \/ cfg_params cfg = Some [("q", VStr "arroz")]).
Proof.
  apply (aggregate_call_content itemRegistry refusing "item-service" "/search"
           "GET" None [("q", VStr "arroz")]).
  right. left. reflexivity.
Defined.

(** X12.  What the aggregates return for the calls that succeed: a
    dashboard label is available and its data is the [data] member of the
    downstream body; a search label is available and its results are the
    [data.results] member of the downstream body when that is truthy and
    the [data] member otherwise; the search echoes the query. *)
Theorem aggregate_success_payloads :
  (forall reg net timestamp req,
     let auth := header req "authorization" in
     let user := fst (callService reg net "user-service" "/users/profile" "GET" auth []) in
     let items := fst (callService reg net "item-service" "/items" "GET" None [("limit", VNum 10)]) in
     let lists := fst (callService reg net "list-service" "/lists" "GET" auth [("limit", VNum 5)]) in
     let categories := fst (callService reg net "item-service" "/categories" "GET" None []) in
     let r := fst (getDashboard reg net timestamp req) in
     present auth = true ->
     payloadReadable user = true -> payloadReadable items = true ->
     payloadReadable lists = true -> payloadReadable categories = true ->
     (forall v, user = Fulfilled v ->
        path ["data"; "user_data"; "profile"; "data"] (body r) = field "data" v) /\
     (forall v, lists = Fulfilled v ->
        path ["data"; "shopping_data"; "lists"; "data"] (body r) = field "data" v) /\
     (forall v, items = Fulfilled v ->
        path ["data"; "shopping_data"; "items"; "data"] (body r) = field "data" v) /\
     (forall v, categories = Fulfilled v ->
        path ["data"; "shopping_data"; "categories"; "data"] (body r)
        = field "data" v)) /\
  (forall reg net req,
     let q := queryParam req "q" in
     let auth := header req "authorization" in
     let items := fst (callService reg net "item-service" "/search" "GET" None [("q", q)]) in
     let lists := fst (callService reg net "list-service" "/search" "GET" auth
                         [("q", q); ("limit", VNum 10)]) in
     let r := fst (globalSearch reg net req) in
     truthy q = true ->
     payloadReadable items = true ->
     (present auth = true -> payloadReadable lists = true) ->
     path ["data"; "query"] (body r) = q /\
     (forall v, items = Fulfilled v ->
        path ["data"; "items"; "results"] (body r)
        = (if truthy (path ["data"; "results"] v)
           then path ["data"; "results"] v else field "data" v)) /\
     (present auth = true -> forall v, lists = Fulfilled v ->
        path ["data"; "lists"; "results"] (body r)
        = (if truthy (path ["data"; "results"] v)
           then path ["data"; "results"] v else field "data" v))).
Proof.
  split.
  - intros reg net timestamp req auth user items lists categories r
      Hauth Hu Hi Hl Hc.
    subst r. unfold getDashboard. fold auth. rewrite Hauth. simpl negb. cbv iota.
    subst user items lists categories.
    destruct (callService reg net "user-service" _ _ auth _) as [user t1].
    destruct (callService reg net "item-service" "/items" _ _ _) as [items t2].
    destruct (callService reg net "list-service" _ _ auth _) as [lists t3].
    destruct (callService reg net "item-service" "/categories" _ _ _)
      as [categories t4].
    simpl fst in *.
    destruct (dashboardLabel_readable _ Hu) as (lu & Eu & _).
    destruct (dashboardLabel_readable _ Hi) as (li & Ei & _).
    destruct (dashboardLabel_readable _ Hl) as (ll & El & _).
    destruct (dashboardLabel_readable _ Hc) as (lc & Ec & _).
    rewrite Eu, Ei, El, Ec. unfold path; simpl fold_left.
    repeat split; intros v ->.
    + exact (proj2 (dashboardLabel_data _ _ Eu)).
    + exact (proj2 (dashboardLabel_data _ _ El)).
    + exact (proj2 (dashboardLabel_data _ _ Ei)).
    + exact (proj2 (dashboardLabel_data _ _ Ec)).
  - intros reg net req q auth items lists r Hq Hi Hl.
    subst r. unfold globalSearch. fold q. fold auth.
    rewrite Hq. simpl negb. cbv iota. subst items lists.
    destruct (callService reg net "item-service" _ _ _ _) as [items t1].
    simpl fst in *.
    destruct (searchLabel_readable _ Hi) as (li & Ei & _).
    destruct (present auth) eqn:Hauth.
    + destruct (callService reg net "list-service" _ _ _ _) as [lists t2].
      simpl fst in *.
      destruct (searchLabel_readable _ (Hl eq_refl)) as (ll & El & _).
      rewrite Ei, El. unfold path at 1 2 4; simpl fold_left.
      split; [reflexivity|]. split.
      * intros v ->. exact (proj2 (searchLabel_results _ _ Ei)).
      * intros _ v ->. exact (proj2 (searchLabel_results _ _ El)).
    + rewrite Ei. unfold path at 1 2 4; simpl fold_left.
      split; [reflexivity|]. split.
      * intros v ->. exact (proj2 (searchLabel_results _ _ Ei)).
      * intros H. discriminate H.
Qed.

Lemma aggregate_success_payloads_witness :
  let found := VObj [("success", VBool true);
                     ("data", VObj [("results", VArr [VStr "Arroz"])])] in
  let r := fst (globalSearch itemRegistry (answering 200 found) (searchArroz [])) in
  path ["data"; "query"] (body r) = VStr "arroz" /\
  (forall v, Fulfilled found = Fulfilled v ->
     path ["data"; "items"; "results"] (body r)
     = (if truthy (path ["data"; "results"] v)
        then path ["data"; "results"] v else field "data" v)) /\
  (present None = true -> forall v,
     fst (callService itemRegistry (answering 200 found) "list-service" "/search"
            "GET" None [("q", VStr "arroz"); ("limit", VNum 10)]) = Fulfilled v ->
     path ["data"; "lists"; "results"] (body r)
     = (if truthy (path ["data"; "results"] v)
        then path ["data"; "results"] v else field "data" v)).
Proof.
  apply (proj2 aggregate_success_payloads itemRegistry
           (answering 200 (VObj [("success", VBool true);
                                 ("data", VObj [("results", VArr [VStr "Arroz"])])]))
           (searchArroz [])).
  - reflexivity.
  - reflexivity.
  - intros H. discriminate H.
Defined.

(** X14.  No failure of one constituent keeps the others from being
    attempted: an authenticated dashboard request always looks up
    user-service, item-service, list-service and item-service again, in
    that order, and a search with [q] always looks up item-service and then
    list-service exactly when a credential is present. *)
Theorem aggregates_attempt_every_call :
  (forall reg net timestamp req,
     present (header req "authorization") = true ->
     discovered (snd (getDashboard reg net timestamp req))
     = ["user-service"; "item-service"; "list-service"; "item-service"]) /\
  (forall reg net req,
     truthy (queryParam req "q") = true ->
     discovered (snd (globalSearch reg net req))
     = "item-service"
       :: (if present (header req "authorization") then ["list-service"] else [])).
Proof.
  split.
  - intros reg net timestamp req Hauth.
    unfold getDashboard. rewrite Hauth. simpl negb. cbv iota.
    pose proof (callService_discovered reg net "user-service" "/users/profile"
                  "GET" (header req "authorization") []) as H1.
    pose proof (callService_discovered reg net "item-service" "/items"
                  "GET" None [("limit", VNum 10)]) as H2.
    pose proof (callService_discovered reg net "list-service" "/lists"
                  "GET" (header req "authorization") [("limit", VNum 5)]) as H3.
    pose proof (callService_discovered reg net "item-service" "/categories"
                  "GET" None []) as H4.
    destruct (callService reg net "user-service" _ _ _ _) as [user t1].
    destruct (callService reg net "item-service" "/items" _ _ _) as [items t2].
    destruct (callService reg net "list-service" _ _ _ _) as [lists t3].
    destruct (callService reg net "item-service" "/categories" _ _ _)
      as [categories t4].
    simpl snd in *.
    assert (Ht : discovered (t1 ++ t2 ++ t3 ++ t4 ++ [EvListServices])%list
                 = ["user-service"; "item-service"; "list-service"; "item-service"]).
    { rewrite !discovered_app, H1, H2, H3, H4. reflexivity. }
    destruct (_ ≫= _); simpl; exact Ht.
  - intros reg net req Hq.
    unfold globalSearch. rewrite Hq. simpl negb. cbv iota.
    pose proof (callService_discovered reg net "item-service" "/search"
                  "GET" None [("q", queryParam req "q")]) as H1.
    pose proof (callService_discovered reg net "list-service" "/search"
                  "GET" (header req "authorization")
                  [("q", queryParam req "q"); ("limit", VNum 10)]) as H2.
    destruct (callService reg net "item-service" _ _ _ _) as [items t1].
    simpl snd in *.
    destruct (present (header req "authorization")).
    + destruct (callService reg net "list-service" _ _ _ _) as [lists t2].
      simpl snd in *.
      assert (Ht : discovered (t1 ++ t2)%list = ["item-service"; "list-service"]).
      { rewrite discovered_app, H1, H2. reflexivity. }
      destruct (_ ≫= _); simpl; exact Ht.
    + assert (Ht : discovered (t1 ++ [])%list = ["item-service"]).
      { rewrite discovered_app, H1. reflexivity. }
      destruct (_ ≫= _); simpl; exact Ht.
Qed.

Lemma aggregates_attempt_every_call_witness :
  discovered (snd (globalSearch itemRegistry refusing (searchArroz withToken)))
  = "item-service"
    :: (if present (header (searchArroz withToken) "authorization")
        then ["list-service"] else []).
Proof.
  apply (proj2 aggregates_attempt_every_call itemRegistry refusing
           (searchArroz withToken)).
  reflexivity.
Defined.
